(** * Pipe-flow hydraulics: a shallow embedding of [app/core/pipe_calc.py]

    The module computes, for steady incompressible flow in a round pipe, the
    Reynolds number, the Darcy friction factor (laminar formula, Swamee-Jain
    correlation, Colebrook-White fixed-point iteration), the head losses and
    the pressure drop.

    Numbers.  Python floats are modelled by the real numbers of the Standard
    Library: every operation is the exact one, so rounding, overflow,
    infinities and NaN are outside the model.  What Python's arithmetic
    raises on real arguments is kept: [/] raises [ZeroDivisionError] on a
    zero divisor, [math.log10] and [math.sqrt] raise [ValueError] outside
    their domain.

    Exceptions.  A function that can raise returns a [result]; the
    [InvalidArgument] of the specification is Python's [ValueError].

    Optional arguments.  A keyword argument whose [None] is tested by the
    code ([Q], [V], [rho], [mu], [nu]) is an [option R].  [D] and [L] also
    default to [None] in [analyze_pipe_flow], but the code never tests them:
    they are numbers here, as every caller in the repository passes them.

    Callers.  The property lookup of [app/fluid/fluid_props.py], the
    dispatch of [app/cli.py] and the sweep of [app/viz/plots.py] are
    embedded after the core, with the external libraries kept abstract.

    Binary64.  Whether the Colebrook solver returns or raises is decided
    by rounding: a small term is absorbed when it is added to 1.  For
    that question the solver is embedded a second time, in module
    [Binary64], on the IEEE 754 doubles of the kernel, with the two
    functions of the C library as parameters. *)

From Stdlib Require Import Floats.
From Stdlib Require Import Reals Lra String Bool List.
Import ListNotations.

#[local] Set Warnings "-inexact-float".

Open Scope R_scope.

(** ** Exceptions and the error monad *)

Inductive exn : Type :=
| ValueError (msg : string)
| ZeroDivisionError
| OverflowError.

Inductive result (A : Type) : Type :=
| Return (a : A)
| Raise (e : exn).

Arguments Return {A} a.
Arguments Raise {A} e.

Definition bind {A B : Type} (c : result A) (k : A -> result B) : result B :=
  match c with
  | Return a => k a
  | Raise e => Raise e
  end.

Notation "x <- c ;; k" := (bind c (fun x => k))
  (at level 61, c at next level, right associativity).

(** ** Comparisons and the arithmetic that can raise *)

Definition Rltb (x y : R) : bool := if Rlt_dec x y then true else false.
Definition Rleb (x y : R) : bool := if Rle_dec x y then true else false.

(** [x / y] on floats. *)
Definition truediv (x y : R) : result R :=
  if Req_dec_T y 0 then Raise ZeroDivisionError else Return (x / y).

(** [math.sqrt]. *)
Definition math_sqrt (x : R) : result R :=
  if Rltb x 0 then Raise (ValueError "math domain error") else Return (sqrt x).

(** The decimal logarithm on positive reals. *)
Definition log10 (x : R) : R := ln x / ln 10.

(** [math.log10]. *)
Definition math_log10 (x : R) : result R :=
  if Rleb x 0 then Raise (ValueError "math domain error") else Return (log10 x).

(** ** The source, function by function *)

(** [g = 9.80665] *)
Definition g : R := 9.80665.

(** [reynolds_number(rho, V, D, mu=None, nu=None)] *)
Definition reynolds_number (rho V D : R) (mu nu : option R) : result R :=
  nu <- match nu with
        | Some n => Return n
        | None =>
            match mu with
            | None => Raise (ValueError "Provide mu or nu")
            | Some m => truediv m rho
            end
        end ;;
  truediv (V * D) nu.

(** [friction_factor_laminar(Re)] *)
Definition friction_factor_laminar (Re : R) : result R :=
  truediv 64 Re.

(** [friction_factor_swamee_jain(Re, eps_rel, D)].  [Re ** 0.9] is reached
    with [Re > 0] only, where it is [Rpower]; a division by the literal
    [3.7] cannot raise. *)
Definition friction_factor_swamee_jain (Re eps_rel D : R) : result R :=
  if Rleb Re 0 then Raise (ValueError "Re must be positive for Swamee-Jain")
  else
    r <- truediv eps_rel D ;;
    let A := r / 3.7 in
    B <- truediv 5.74 (Rpower Re 0.9) ;;
    l <- math_log10 (A + B) ;;
    truediv 0.25 (l ^ 2).

(** One pass through the body of the [for] loop of
    [friction_factor_colebrook]: either the function returns ([inl]), or the
    loop goes on with the damped value ([inr]), or an operation raises.
    [lhs] and [residual] are computed by the source and never used; their
    computation is kept because it can raise. *)
Definition colebrook_step (Re eps_rel D tol f : R) : result (R + R) :=
  s <- math_sqrt f ;;
  lhs <- truediv 1 s ;;
  r <- truediv eps_rel D ;;
  s' <- math_sqrt f ;;
  t <- truediv 2.51 (Re * s') ;;
  l <- math_log10 (r / 3.7 + t) ;;
  let rhs := -2 * l in
  let residual := lhs - rhs in
  f_new <- truediv 1 (rhs ^ 2) ;;
  if Rltb (Rabs (f_new - f)) tol then Return (inl f_new)
  else Return (inr (0.5 * (f + f_new))).

(** [for i in range(max_iter): ...] followed by [return f]. *)
Fixpoint colebrook_loop (max_iter : nat) (Re eps_rel D tol f : R) : result R :=
  match max_iter with
  | O => Return f
  | S n =>
      o <- colebrook_step Re eps_rel D tol f ;;
      match o with
      | inl f_new => Return f_new
      | inr f' => colebrook_loop n Re eps_rel D tol f'
      end
  end.

(** [friction_factor_colebrook(Re, eps_rel, D, f0=0.02, max_iter=50, tol=1e-6)] *)
Definition friction_factor_colebrook
  (Re eps_rel D f0 : R) (max_iter : nat) (tol : R) : result R :=
  if Rleb Re 0 then Raise (ValueError "Re must be positive for Colebrook")
  else colebrook_loop max_iter Re eps_rel D tol f0.

(** The defaults of the keyword arguments. *)
Definition f0_default : R := 0.02.
Definition max_iter_default : nat := 50.
Definition tol_default : R := 1e-6.

(** [friction_factor(Re, eps_rel, D)].  [except Exception: pass] catches
    whatever the [try] block raises and falls through to the last line. *)
Definition friction_factor (Re eps_rel D : R) : result R :=
  if Rleb Re 0 then Raise (ValueError "Re must be positive")
  else if Rltb Re 2300 then friction_factor_laminar Re
  else
    let fallback :=
      friction_factor_colebrook Re eps_rel D
        f0_default max_iter_default tol_default in
    match friction_factor_swamee_jain Re eps_rel D with
    | Return f_sj =>
        if Rltb 0 f_sj && Rltb f_sj 1 then Return f_sj else fallback
    | Raise _ => fallback
    end.

(** [velocity_from_flowrate(Q, D)] *)
Definition velocity_from_flowrate (Q D : R) : result R :=
  let A := PI * D ^ 2 / 4 in
  truediv Q A.

(** [head_loss_darcy(f, L, D, V)] *)
Definition head_loss_darcy (f L D V : R) : result R :=
  r <- truediv L D ;;
  Return (f * r * V ^ 2 / (2 * g)).

(** [minor_loss_head(K_total, V)] *)
Definition minor_loss_head (K_total V : R) : R :=
  K_total * V ^ 2 / (2 * g).

(** [pressure_drop(rho, head_total)] *)
Definition pressure_drop (rho head_total : R) : R :=
  rho * g * head_total.

(** The dictionary returned by [analyze_pipe_flow], one field per key. *)
Module FlowResult.

Record t : Type := mk {
  Re : R;
  f : R;
  V : R;
  h_f : R;
  h_minor : R;
  head_total : R;
  deltaP : R
}.

End FlowResult.

(** [analyze_pipe_flow(Q=None, V=None, D=None, L=None, eps_rel=1e-5,
                       rho=None, mu=None, nu=None, K_total=0.0)] *)
Definition analyze_pipe_flow
  (Q V : option R) (D L eps_rel : R) (rho mu nu : option R) (K_total : R)
  : result FlowResult.t :=
  let rest (V : R) :=
    match rho with
    | None => Raise (ValueError "rho required")
    | Some rho =>
        Re <- reynolds_number rho V D mu nu ;;
        f <- friction_factor Re eps_rel D ;;
        h_f <- head_loss_darcy f L D V ;;
        let h_minor := minor_loss_head K_total V in
        let head_total := h_f + h_minor in
        let deltaP := pressure_drop rho head_total in
        Return (FlowResult.mk Re f V h_f h_minor head_total deltaP)
    end in
  match Q, V with
  | None, None => Raise (ValueError "Provide Q or V")
  | Some q, None => V <- velocity_from_flowrate q D ;; rest V
  | _, Some v => rest v
  end.

(** ** The callers of the core

    [app/fluid/fluid_props.py], [app/cli.py] and [app/viz/plots.py] feed the
    core and read its results.  What belongs to an external library is kept
    abstract ([PropsSI]) or modelled by its documented meaning
    ([np.logspace]); printing and drawing are not modelled. *)

(** The dictionary returned by [properties_PT]. *)
Module FluidProps.

Record t : Type := mk {
  rho : R;
  mu : R;
  nu : R
}.

End FluidProps.

(** [--mode], with [choices=["Q","V"]]. *)
Inductive cli_mode : Type :=
| ModeQ
| ModeV.

(** The namespace returned by [parse_args()]: [--Q] and [--V] have no
    default, every other option has one or is required. *)
Record cli_args : Type := {
  arg_fluid : string;
  arg_mode : cli_mode;
  arg_Q : option R;
  arg_V : option R;
  arg_D : R;
  arg_L : R;
  arg_eps : R;
  arg_T : R;
  arg_P : R;
  arg_K : R
}.

(** How a run of the command line ends: [p.error] prints a usage message
    and exits with status 2; an exception that nothing catches ends the
    program with a traceback; otherwise the eight result lines are
    printed. *)
Inductive cli_outcome : Type :=
| UsageError (msg : string)
| Uncaught (e : exn)
| Printed (r : FlowResult.t).

Section CoolProp.

(** [CoolProp.PropsSI(output, name1, value1, name2, value2, fluid)], the
    external property database.  Nothing is assumed about it: it returns a
    number or raises. *)
Variable PropsSI :
  string -> string -> R -> string -> R -> string -> result R.

(** [properties_PT(fluid, P, T)] *)
Definition properties_PT (fluid : string) (P T : R) : result FluidProps.t :=
  rho <- PropsSI "D" "P" P "T" T fluid ;;
  mu <- PropsSI "V" "P" P "T" T fluid ;;
  nu <- truediv mu rho ;;
  Return (FluidProps.mk rho mu nu).

(** [properties_at_STP(fluid)] *)
Definition properties_at_STP (fluid : string) : result FluidProps.t :=
  let P := 101325 in
  let T := 293.15 in
  properties_PT fluid P T.

(** [main()] of [app/cli.py], from the parsed arguments on. *)
Definition main (args : cli_args) : cli_outcome :=
  match properties_PT (arg_fluid args) (arg_P args) (arg_T args) with
  | Raise e => Uncaught e
  | Return props =>
      let rho := FluidProps.rho props in
      let mu := FluidProps.mu props in
      let print (res : result FlowResult.t) :=
        match res with
        | Return r => Printed r
        | Raise e => Uncaught e
        end in
      match arg_mode args with
      | ModeQ =>
          match arg_Q args with
          | None => UsageError "--Q required for mode Q"
          | Some q =>
              print (analyze_pipe_flow (Some q) None (arg_D args) (arg_L args)
                       (arg_eps args) (Some rho) (Some mu) None (arg_K args))
          end
      | ModeV =>
          match arg_V args with
          | None => UsageError "--V required for mode V"
          | Some v =>
              print (analyze_pipe_flow None (Some v) (arg_D args) (arg_L args)
                       (arg_eps args) (Some rho) (Some mu) None (arg_K args))
          end
      end
  end.

End CoolProp.

(** [np.linspace(start, stop, num)]: [num] evenly spaced samples, both ends
    included. *)
Definition linspace (start stop : R) (num : nat) : list R :=
  map (fun i => start + INR i * ((stop - start) / INR (num - 1))) (seq 0 num).

(** [np.logspace(start, stop, num)]: ten to the power of the samples of
    [linspace]. *)
Definition logspace (start stop : R) (num : nat) : list R :=
  map (fun y => Rpower 10 y) (linspace start stop num).

(** The [for] loop of [moody_background]: the friction factor of each
    Reynolds number is appended to [f_vals]. *)
Fixpoint moody_loop (eps_rel : R) (Re_range f_vals : list R) : result (list R) :=
  match Re_range with
  | [] => Return f_vals
  | Re :: rest =>
      f <- friction_factor Re eps_rel 0.1 ;;
      moody_loop eps_rel rest (f_vals ++ [f])
  end.

(** [moody_background(fluid="Fluid", D_vals=None, eps_rel=1e-5)]; the first
    two arguments are not used by the body. *)
Definition moody_background (eps_rel : R) : result (list R * list R) :=
  let Re_range := logspace 2 8 200 in
  f_vals <- moody_loop eps_rel Re_range [] ;;
  Return (Re_range, f_vals).

(** ** The Colebrook solver on binary64 numbers

    Python's [float] is the IEEE 754 binary64 format and its [+], [-], [*],
    [/] and [math.sqrt] are correctly rounded, like the operations of
    [PrimFloat]; the literals of the source denote the nearest double, as
    the literals below do.  [math.log10] and [**] go through the C
    library: [c_log10] stands for [log10] and [c_pow] for [pow]. *)
Module Binary64.

Section Libm.

Variable c_log10 : float -> float.
Variable c_pow : float -> float -> float.

(** [x / y]: a zero divisor of either sign raises. *)
Definition truediv (x y : float) : result float :=
  if (y =? 0)%float then Raise ZeroDivisionError else Return (x / y)%float.

(** [math.sqrt]: a result that is not a number, for an argument that is
    one, raises. *)
Definition math_sqrt (x : float) : result float :=
  let r := PrimFloat.sqrt x in
  if is_nan r && negb (is_nan x)
  then Raise (ValueError "math domain error")
  else Return r.

(** [math.log10]: not-a-number and plus infinity are returned as they are;
    zero, a negative number and minus infinity raise; a finite positive
    number is passed to the C library, whose result must be finite. *)
Definition math_log10 (x : float) : result float :=
  if is_nan x then Return x
  else if is_infinity x then
    if (0 <? x)%float then Return x
    else Raise (ValueError "math domain error")
  else if (0 <? x)%float then
    let r := c_log10 x in
    if is_nan r || is_infinity r
    then Raise (ValueError "math domain error")
    else Return r
  else Raise (ValueError "math domain error").

(** [x ** 2]: the interpreter settles not-a-number, the infinities, zero
    and one itself, replaces a negative base by its absolute value, and
    calls the C library for the rest; an infinite result raises. *)
Definition square (x : float) : result float :=
  if is_nan x then Return x
  else if is_infinity x then Return (PrimFloat.abs x)
  else if (x =? 0)%float then Return 0%float
  else if (PrimFloat.abs x =? 1)%float then Return 1%float
  else
    let r := c_pow (PrimFloat.abs x) 2%float in
    if is_infinity r then Raise OverflowError else Return r.

(** The body of the [for] loop, as in [colebrook_step]. *)
Definition colebrook_step (Re eps_rel D tol f : float) : result (float + float) :=
  s <- math_sqrt f ;;
  lhs <- truediv 1%float s ;;
  r <- truediv eps_rel D ;;
  s' <- math_sqrt f ;;
  t <- truediv 2.51%float (Re * s')%float ;;
  l <- math_log10 (r / 3.7 + t)%float ;;
  let rhs := (-2 * l)%float in
  let residual := (lhs - rhs)%float in
  sq <- square rhs ;;
  f_new <- truediv 1%float sq ;;
  if (PrimFloat.abs (f_new - f) <? tol)%float then Return (inl f_new)
  else Return (inr (0.5 * (f + f_new))%float).

Fixpoint colebrook_loop (max_iter : nat) (Re eps_rel D tol f : float)
  : result float :=
  match max_iter with
  | O => Return f
  | S n =>
      o <- colebrook_step Re eps_rel D tol f ;;
      match o with
      | inl f_new => Return f_new
      | inr f' => colebrook_loop n Re eps_rel D tol f'
      end
  end.

(** [friction_factor_colebrook(Re, eps_rel, D, f0=0.02, max_iter=50, tol=1e-6)] *)
Definition friction_factor_colebrook
  (Re eps_rel D f0 : float) (max_iter : nat) (tol : float) : result float :=
  if (Re <=? 0)%float
  then Raise (ValueError "Re must be positive for Colebrook")
  else colebrook_loop max_iter Re eps_rel D tol f0.

End Libm.

End Binary64.

(** ** The resolver in the words of the specification

    These definitions follow the text of the specification, not the code;
    the theorems below compare them with the functions above. *)

(** "f_sj = 0.25 / [log10(eps/(3.7 D) + 5.74/Re^0.9)]^2" *)
Definition swamee_jain_formula (Re eps D : R) : R :=
  0.25 / (log10 (eps / (3.7 * D) + 5.74 / Rpower Re 0.9)) ^ 2.

(** The right-hand side of the Colebrook-White equation,
    "-2 log10(eps/(3.7 D) + 2.51/(Re sqrt f))". *)
Definition colebrook_rhs (Re eps D f : R) : R :=
  -2 * log10 (eps / (3.7 * D) + 2.51 / (Re * sqrt f)).

(** "propose f_new = 1/rhs^2" *)
Definition colebrook_proposal (Re eps D f : R) : R :=
  1 / (colebrook_rhs Re eps D f) ^ 2.

(** "if |f_new - f| < tolerance, return f_new; else set f = 0.5 (f + f_new)
    and continue", at most [n] times, then "return the last computed f". *)
Fixpoint colebrook_relaxation (n : nat) (Re eps D tol f : R) : R :=
  match n with
  | O => f
  | S n' =>
      let f_new := colebrook_proposal Re eps D f in
      if Rltb (Rabs (f_new - f)) tol then f_new
      else colebrook_relaxation n' Re eps D tol (0.5 * (f + f_new))
  end.

(** One of the iterates visited by the relaxation, before the tolerance is
    met and within [n] passes, has a right-hand side equal to zero: the
    proposal [1 / rhs^2] is not defined there. *)
Fixpoint rhs_vanishes (n : nat) (Re eps D tol f : R) : Prop :=
  match n with
  | O => False
  | S n' =>
      colebrook_rhs Re eps D f = 0 \/
      (let f_new := colebrook_proposal Re eps D f in
       colebrook_rhs Re eps D f <> 0 /\
       Rltb (Rabs (f_new - f)) tol = false /\
       rhs_vanishes n' Re eps D tol (0.5 * (f + f_new)))
  end.

(** ** Evaluating the primitive operations *)

Lemma Rltb_true (x y : R) : x < y -> Rltb x y = true.
Proof. intros H. unfold Rltb. destruct (Rlt_dec x y); [reflexivity | contradiction]. Qed.

Lemma Rltb_false (x y : R) : y <= x -> Rltb x y = false.
Proof. intros H. unfold Rltb. destruct (Rlt_dec x y); [lra | reflexivity]. Qed.

Lemma Rleb_true (x y : R) : x <= y -> Rleb x y = true.
Proof. intros H. unfold Rleb. destruct (Rle_dec x y); [reflexivity | contradiction]. Qed.

Lemma Rleb_false (x y : R) : y < x -> Rleb x y = false.
Proof. intros H. unfold Rleb. destruct (Rle_dec x y); [lra | reflexivity]. Qed.

Lemma truediv_nonzero (x y : R) : y <> 0 -> truediv x y = Return (x / y).
Proof. intros H. unfold truediv. destruct (Req_dec_T y 0); [contradiction | reflexivity]. Qed.

Lemma truediv_zero (x : R) : truediv x 0 = Raise ZeroDivisionError.
Proof. unfold truediv. destruct (Req_dec_T 0 0); [reflexivity | congruence]. Qed.

Lemma truediv_cases (x y : R) :
  (y = 0 /\ truediv x y = Raise ZeroDivisionError) \/
  (y <> 0 /\ truediv x y = Return (x / y)).
Proof.
  destruct (Req_dec_T y 0) as [-> | Hy].
  - left. split; [reflexivity | apply truediv_zero].
  - right. split; [assumption | now apply truediv_nonzero].
Qed.

Lemma math_sqrt_nonneg (x : R) : 0 <= x -> math_sqrt x = Return (sqrt x).
Proof. intros H. unfold math_sqrt. now rewrite Rltb_false. Qed.

Lemma math_log10_pos (x : R) : 0 < x -> math_log10 x = Return (log10 x).
Proof. intros H. unfold math_log10. now rewrite Rleb_false. Qed.

(** Decimal literals are quotients of integers; [field] wants them
    spelled out. *)
Ltac decimals :=
  unfold Q2R; cbn [QArith_base.Qnum QArith_base.Qden];
  repeat match goal with
    | |- context [Z.pow_pos ?a ?b] =>
        let v := eval cbv in (Z.pow_pos a b) in
        change (Z.pow_pos a b) with v
    end.

Lemma bind_Return {A B : Type} (a : A) (k : A -> result B) :
  (x <- Return a ;; k x) = k a.
Proof. reflexivity. Qed.

Lemma bind_Raise_inv {A B : Type} (c : result A) (k : A -> result B) (e : exn) :
  (x <- c ;; k x) = Raise e ->
  c = Raise e \/ exists a, c = Return a /\ k a = Raise e.
Proof.
  destruct c as [a | e']; unfold bind; intros H.
  - right. exists a. split; [reflexivity | assumption].
  - left. injection H as ->. reflexivity.
Qed.

Lemma bind_Return_inv {A B : Type} (c : result A) (k : A -> result B) (b : B) :
  (x <- c ;; k x) = Return b ->
  exists a, c = Return a /\ k a = Return b.
Proof.
  destruct c as [a | e']; unfold bind; intros H.
  - exists a. split; [reflexivity | assumption].
  - discriminate.
Qed.

(** ** Flow kinematics *)

Lemma PI_area_nonzero (D : R) : D <> 0 -> PI * D ^ 2 / 4 <> 0.
Proof.
  intros HD. pose proof PI_RGT_0 as Hpi.
  assert (0 < D ^ 2) by (simpl; nra).
  assert (0 < PI * D ^ 2) by (apply Rmult_lt_0_compat; assumption).
  lra.
Qed.

Lemma reynolds_number_nu (rho V D n : R) (mu : option R) :
  n <> 0 -> reynolds_number rho V D mu (Some n) = Return (V * D / n).
Proof. intros Hn. unfold reynolds_number. simpl. now apply truediv_nonzero. Qed.

Lemma reynolds_number_mu (rho V D m : R) :
  rho <> 0 -> m <> 0 ->
  reynolds_number rho V D (Some m) None = Return (V * D / (m / rho)).
Proof.
  intros Hrho Hm. unfold reynolds_number.
  rewrite (truediv_nonzero m rho Hrho). simpl.
  apply truediv_nonzero.
  unfold Rdiv. apply Rmult_integral_contrapositive_currified.
  - assumption.
  - now apply Rinv_neq_0_compat.
Qed.

(** ** The laminar branch and the guards of the resolver *)

Lemma friction_factor_laminar_branch (Re eps_rel D : R) :
  0 < Re -> Re < 2300 -> friction_factor Re eps_rel D = Return (64 / Re).
Proof.
  intros Hpos Hlam. unfold friction_factor.
  rewrite Rleb_false by assumption.
  rewrite Rltb_true by assumption.
  unfold friction_factor_laminar. apply truediv_nonzero. lra.
Qed.

Lemma g_pos : 0 < g.
Proof. unfold g. lra. Qed.

(** C9.  For every Reynolds number with [0 < Re < 2300] the resolver
    returns exactly [64 / Re]: the value of [friction_factor_laminar],
    whatever the roughness and the diameter, without entering the Colebrook
    loop. *)
Theorem friction_factor_laminar_exact (Re eps_rel D : R) :
  0 < Re -> Re < 2300 ->
  friction_factor Re eps_rel D = Return (64 / Re) /\
  friction_factor Re eps_rel D = friction_factor_laminar Re /\
  forall eps_rel' D' : R,
    friction_factor Re eps_rel' D' = friction_factor Re eps_rel D.
Proof.
  intros Hpos Hlam. split; [ | split].
  - now apply friction_factor_laminar_branch.
  - rewrite friction_factor_laminar_branch by assumption.
    unfold friction_factor_laminar. symmetry. apply truediv_nonzero. lra.
  - intros eps_rel' D'. now rewrite !friction_factor_laminar_branch.
Qed.

(** The regression point of the specification: [Re = 1000] gives
    [f = 0.064]. *)
Lemma friction_factor_laminar_exact_witness :
  0 < 1000 /\ 1000 < 2300 /\ friction_factor 1000 1e-5 0.05 = Return 0.064.
Proof.
  split; [lra | split; [lra | ]].
  destruct (friction_factor_laminar_exact 1000 1e-5 0.05 ltac:(lra) ltac:(lra))
    as [H _].
  rewrite H. apply f_equal. lra.
Defined.

(** C7.  A Reynolds number that is zero or negative is rejected with a
    [ValueError] by the resolver, before any arithmetic, and the Colebrook
    solver checks the same precondition itself, whatever its seed, iteration
    cap and tolerance. *)
Theorem friction_factor_rejects_nonpositive_Re (Re eps_rel D : R) :
  Re <= 0 ->
  friction_factor Re eps_rel D = Raise (ValueError "Re must be positive") /\
  forall (f0 : R) (max_iter : nat) (tol : R),
    friction_factor_colebrook Re eps_rel D f0 max_iter tol
    = Raise (ValueError "Re must be positive for Colebrook").
Proof.
  intros HRe. split.
  - unfold friction_factor. now rewrite Rleb_true.
  - intros f0 max_iter tol. unfold friction_factor_colebrook.
    now rewrite Rleb_true.
Qed.

Lemma friction_factor_rejects_nonpositive_Re_witness :
  friction_factor 0 1e-5 0.05 = Raise (ValueError "Re must be positive") /\
  friction_factor_colebrook (-3) 1e-5 0.05 0.02 50 1e-6
  = Raise (ValueError "Re must be positive for Colebrook").
Proof.
  split.
  - apply (friction_factor_rejects_nonpositive_Re 0 1e-5 0.05). lra.
  - apply (friction_factor_rejects_nonpositive_Re (-3) 1e-5 0.05). lra.
Defined.

(** C6, as the code has it.  [velocity_from_flowrate] does not look at the
    sign of the diameter: for every [D <> 0], negative ones included, it
    returns [Q / (PI * D^2 / 4)]; for [D = 0] the division raises
    [ZeroDivisionError].  It never raises a [ValueError]. *)
Theorem velocity_from_flowrate_cases (Q D : R) :
  (D <> 0 -> velocity_from_flowrate Q D = Return (Q / (PI * D ^ 2 / 4))) /\
  (D = 0 -> velocity_from_flowrate Q D = Raise ZeroDivisionError) /\
  (forall msg, velocity_from_flowrate Q D <> Raise (ValueError msg)).
Proof.
  unfold velocity_from_flowrate. split; [ | split].
  - intros HD. apply truediv_nonzero. now apply PI_area_nonzero.
  - intros ->. replace (PI * 0 ^ 2 / 4) with 0 by (simpl; lra).
    apply truediv_zero.
  - intros msg. destruct (truediv_cases Q (PI * D ^ 2 / 4)) as [[_ H] | [_ H]];
      cbv zeta; rewrite H; discriminate.
Qed.

Lemma velocity_from_flowrate_cases_witness :
  velocity_from_flowrate 0.01 0.05 = Return (0.01 / (PI * 0.05 ^ 2 / 4)) /\
  velocity_from_flowrate 0.01 0 = Raise ZeroDivisionError.
Proof.
  split.
  - apply (velocity_from_flowrate_cases 0.01 0.05). lra.
  - apply (velocity_from_flowrate_cases 0.01 0). reflexivity.
Defined.

(** C6 as stated fails: a negative diameter is not rejected.  With [Q = 1]
    and [D = -1] the call returns [4 / PI]. *)
Lemma velocity_from_flowrate_negative_diameter :
  -1 <= 0 /\ velocity_from_flowrate 1 (-1) = Return (4 / PI).
Proof.
  split; [lra | ].
  unfold velocity_from_flowrate.
  rewrite truediv_nonzero by (apply PI_area_nonzero; lra).
  apply f_equal. pose proof PI_RGT_0. decimals. field. lra.
Qed.

(** ** What each function can raise *)

Lemma truediv_raise (x y : R) (e : exn) :
  truediv x y = Raise e -> e = ZeroDivisionError /\ y = 0.
Proof.
  destruct (truediv_cases x y) as [[Hy H] | [_ H]]; rewrite H; intros E.
  - injection E as <-. split; [reflexivity | assumption].
  - discriminate.
Qed.

Lemma math_sqrt_raise (x : R) (e : exn) :
  math_sqrt x = Raise e -> e = ValueError "math domain error" /\ x < 0.
Proof.
  unfold math_sqrt, Rltb. destruct (Rlt_dec x 0); intros E.
  - injection E as <-. split; [reflexivity | assumption].
  - discriminate.
Qed.

Lemma math_log10_raise (x : R) (e : exn) :
  math_log10 x = Raise e -> e = ValueError "math domain error" /\ x <= 0.
Proof.
  unfold math_log10, Rleb. destruct (Rle_dec x 0); intros E.
  - injection E as <-. split; [reflexivity | assumption].
  - discriminate.
Qed.

(** Splits a hypothesis [c = Raise e] along the binds of [c], down to the
    primitive operation that raised. *)
Ltac raise_inv H :=
  lazymatch type of H with
  | bind _ _ = Raise _ =>
      let a := fresh "a" in
      let Ha := fresh "Ha" in
      apply bind_Raise_inv in H;
      destruct H as [H | (a & Ha & H)]; [raise_inv H | cbv beta zeta in H; raise_inv H]
  | truediv _ _ = Raise _ => apply truediv_raise in H; destruct H as [H _]
  | math_sqrt _ = Raise _ => apply math_sqrt_raise in H; destruct H as [H _]
  | math_log10 _ = Raise _ => apply math_log10_raise in H; destruct H as [H _]
  | (if ?b then _ else _) = Raise _ => destruct b; raise_inv H
  | Raise _ = Raise _ => injection H as H; symmetry in H
  | Return _ = Raise _ => discriminate H
  | _ => idtac
  end.

Lemma reynolds_number_raise (rho V D : R) (mu nu : option R) (e : exn) :
  reynolds_number rho V D mu nu = Raise e ->
  e = ZeroDivisionError \/ (e = ValueError "Provide mu or nu" /\ mu = None /\ nu = None).
Proof.
  unfold reynolds_number. intros H.
  destruct nu as [n | ]; [ | destruct mu as [m | ]]; raise_inv H; auto.
Qed.

Lemma colebrook_step_raise (Re eps_rel D tol f : R) (e : exn) :
  colebrook_step Re eps_rel D tol f = Raise e ->
  e = ZeroDivisionError \/ e = ValueError "math domain error".
Proof. unfold colebrook_step. intros H. raise_inv H; auto. Qed.

Lemma colebrook_loop_raise (max_iter : nat) (Re eps_rel D tol f : R) (e : exn) :
  colebrook_loop max_iter Re eps_rel D tol f = Raise e ->
  e = ZeroDivisionError \/ e = ValueError "math domain error".
Proof.
  revert f. induction max_iter as [ | n IH]; intros f H; simpl in H.
  - discriminate.
  - apply bind_Raise_inv in H. destruct H as [H | (o & Ho & H)].
    + now apply colebrook_step_raise in H.
    + destruct o as [f_new | f']; [discriminate | now apply IH in H].
Qed.

Lemma friction_factor_raise (Re eps_rel D : R) (e : exn) :
  friction_factor Re eps_rel D = Raise e ->
  (e = ValueError "Re must be positive" /\ Re <= 0) \/
  (0 < Re /\ (e = ZeroDivisionError \/ e = ValueError "math domain error")).
Proof.
  unfold friction_factor, friction_factor_laminar, friction_factor_colebrook.
  unfold Rleb, Rltb at 1. intros H.
  destruct (Rle_dec Re 0) as [Hle | Hgt].
  - left. injection H as <-. auto.
  - right. split; [lra | ].
    destruct (Rlt_dec Re 2300).
    + raise_inv H. auto.
    + destruct (friction_factor_swamee_jain Re eps_rel D) as [f_sj | e'].
      * destruct (Rltb 0 f_sj && Rltb f_sj 1); [discriminate | ].
        now apply colebrook_loop_raise in H.
      * now apply colebrook_loop_raise in H.
Qed.

(** C5, as the code has it.  With a kinematic viscosity [nu <> 0] the result
    is [V * D / nu]; with only a dynamic viscosity [mu <> 0] and a density
    [rho <> 0] of either sign it is [V * D / (mu / rho)], which is
    [rho * V * D / mu].  A [ValueError] is raised exactly when neither
    viscosity is supplied; the density is never examined, and a zero [nu],
    [rho] or [mu] makes a division raise [ZeroDivisionError]. *)
Theorem reynolds_number_cases (rho V D : R) (mu nu : option R) :
  (forall n, nu = Some n -> n <> 0 ->
     reynolds_number rho V D mu nu = Return (V * D / n)) /\
  (forall m, nu = None -> mu = Some m -> rho <> 0 -> m <> 0 ->
     reynolds_number rho V D mu nu = Return (V * D / (m / rho)) /\
     V * D / (m / rho) = rho * V * D / m) /\
  ((exists msg, reynolds_number rho V D mu nu = Raise (ValueError msg)) <->
     mu = None /\ nu = None) /\
  (nu = Some 0 \/ (nu = None /\ (mu = Some 0 \/ (mu <> None /\ rho = 0))) ->
     reynolds_number rho V D mu nu = Raise ZeroDivisionError).
Proof.
  split; [ | split; [ | split]].
  - intros n -> Hn. now apply reynolds_number_nu.
  - intros m -> -> Hrho Hm. split.
    + now apply reynolds_number_mu.
    + field. split; assumption.
  - split.
    + intros [msg H]. apply reynolds_number_raise in H.
      destruct H as [H | (_ & Hmu & Hnu)]; [discriminate | auto].
    + intros [-> ->]. exists "Provide mu or nu"%string. reflexivity.
  - unfold reynolds_number.
    intros [-> | [-> [-> | [Hmu ->]]]]; simpl.
    + apply truediv_zero.
    + destruct (truediv_cases 0 rho) as [[_ H] | [_ H]]; rewrite H; simpl.
      * reflexivity.
      * replace (0 / rho) with 0 by (unfold Rdiv; ring). apply truediv_zero.
    + destruct mu as [m | ]; [ | congruence].
      now rewrite truediv_zero.
Qed.

Lemma reynolds_number_cases_witness :
  reynolds_number 998 5 0.05 None (Some 1e-6) = Return (5 * 0.05 / 1e-6) /\
  reynolds_number (-1) 1 1 (Some 1) None = Return (1 * 1 / (1 / -1)) /\
  (exists msg, reynolds_number 998 5 0.05 None None = Raise (ValueError msg)) /\
  reynolds_number 0 5 0.05 (Some 0.001) None = Raise ZeroDivisionError.
Proof.
  split; [ | split; [ | split]].
  - apply (reynolds_number_cases 998 5 0.05 None (Some 1e-6) ); [reflexivity | lra].
  - apply (reynolds_number_cases (-1) 1 1 (Some 1) None);
      [reflexivity | reflexivity | lra | lra].
  - apply (reynolds_number_cases 998 5 0.05 None None). split; reflexivity.
  - apply (reynolds_number_cases 0 5 0.05 (Some 0.001) None).
    right. split; [reflexivity | right; split; [discriminate | reflexivity]].
Defined.

(** C5 as stated fails: a negative density is not rejected when the
    kinematic viscosity is derived from [mu].  With [rho = -1] and
    [V = D = mu = 1] the call returns the Reynolds number [-1]. *)
Lemma reynolds_number_negative_density :
  -1 <= 0 /\ reynolds_number (-1) 1 1 (Some 1) None = Return (-1).
Proof.
  split; [lra | ].
  rewrite reynolds_number_mu by lra. apply f_equal. decimals. field.
Qed.

(** ** Logarithms *)

Lemma ln_10_pos : 0 < ln 10.
Proof. rewrite <- ln_1. apply ln_increasing; lra. Qed.

Lemma log10_1 : log10 1 = 0.
Proof. unfold log10. rewrite ln_1. unfold Rdiv. ring. Qed.

Lemma log10_pos (x : R) : 1 < x -> 0 < log10 x.
Proof.
  intros Hx. unfold log10. apply Rdiv_lt_0_compat; [ | apply ln_10_pos].
  rewrite <- ln_1. apply ln_increasing; lra.
Qed.

(** [x^4 < 10] puts [log10 x] below one quarter. *)
Lemma log10_lt_quarter (x : R) : 0 < x -> x ^ 4 < 10 -> log10 x < 1 / 4.
Proof.
  intros Hx H4. pose proof ln_10_pos as H10.
  assert (Hln : 4 * ln x < ln 10).
  { replace 4 with (INR 4) by (simpl; lra).
    rewrite <- ln_pow by assumption.
    apply ln_increasing; [apply pow_lt; assumption | assumption]. }
  unfold log10. apply Rmult_lt_reg_r with (ln 10); [assumption | ].
  unfold Rdiv at 1. rewrite Rmult_assoc, Rinv_l by lra. lra.
Qed.

(** [x^2 < 1/10] puts [log10 x] below minus one half. *)
Lemma log10_lt_neg_half (x : R) : 0 < x -> x ^ 2 < 1 / 10 -> log10 x < - (1 / 2).
Proof.
  intros Hx H2. pose proof ln_10_pos as H10.
  assert (Hln : 2 * ln x < - ln 10).
  { replace 2 with (INR 2) by (simpl; lra).
    rewrite <- ln_pow by assumption.
    rewrite <- ln_Rinv by lra.
    apply ln_increasing; [apply pow_lt; assumption | lra]. }
  unfold log10. apply Rmult_lt_reg_r with (ln 10); [assumption | ].
  unfold Rdiv at 1. rewrite Rmult_assoc, Rinv_l by lra. lra.
Qed.

(** ** The Swamee-Jain correlation *)

Lemma Rpower_pos (x y : R) : 0 < Rpower x y.
Proof. unfold Rpower. apply exp_pos. Qed.

(** [Re ** 0.9] dominates the square root from [Re = 1] on. *)
Lemma Rpower_09_sqrt (Re : R) : 1 <= Re -> sqrt Re <= Rpower Re 0.9.
Proof.
  intros HRe. rewrite <- Rpower_sqrt by lra.
  apply Rle_Rpower; [assumption | lra].
Qed.

Lemma swamee_jain_argument_pos (Re eps D : R) :
  0 < Re -> 0 <= eps -> 0 < D ->
  0 < eps / (3.7 * D) + 5.74 / Rpower Re 0.9.
Proof.
  intros HRe Heps HD. pose proof (Rpower_pos Re 0.9) as Hp.
  assert (0 <= eps / (3.7 * D)).
  { apply Rmult_le_pos; [assumption | ].
    apply Rlt_le, Rinv_0_lt_compat. lra. }
  assert (0 < 5.74 / Rpower Re 0.9) by (apply Rdiv_lt_0_compat; lra).
  lra.
Qed.

(** What the code of the correlation computes on valid inputs: the formula
    of the specification, unless the logarithm is zero, where the last
    division raises. *)
Lemma friction_factor_swamee_jain_eval (Re eps D : R) :
  0 < Re -> 0 <= eps -> 0 < D ->
  let l := log10 (eps / (3.7 * D) + 5.74 / Rpower Re 0.9) in
  (l = 0 /\ friction_factor_swamee_jain Re eps D = Raise ZeroDivisionError /\
   swamee_jain_formula Re eps D = 0) \/
  (l <> 0 /\ friction_factor_swamee_jain Re eps D
             = Return (swamee_jain_formula Re eps D) /\
   0 < swamee_jain_formula Re eps D).
Proof.
  intros HRe Heps HD l.
  pose proof (Rpower_pos Re 0.9) as Hp.
  pose proof (swamee_jain_argument_pos Re eps D HRe Heps HD) as Harg.
  assert (HA : eps / D / 3.7 = eps / (3.7 * D)) by (decimals; field; lra).
  assert (Hsj : friction_factor_swamee_jain Re eps D = truediv 0.25 (l ^ 2)).
  { unfold friction_factor_swamee_jain.
    rewrite Rleb_false by assumption.
    rewrite (truediv_nonzero eps D) by lra. rewrite bind_Return. cbv zeta.
    rewrite (truediv_nonzero 5.74) by lra. rewrite bind_Return.
    rewrite HA. rewrite math_log10_pos by assumption. reflexivity. }
  destruct (Req_dec_T l 0) as [Hl | Hl].
  - left. split; [assumption | ]. split.
    + rewrite Hsj, Hl. replace (0 ^ 2) with 0 by (simpl; ring).
      apply truediv_zero.
    + unfold swamee_jain_formula. fold l. rewrite Hl.
      replace (0 ^ 2) with 0 by (simpl; ring).
      unfold Rdiv. rewrite Rinv_0. ring.
  - right. split; [assumption | ].
    assert (Hsq : 0 < l ^ 2) by (simpl; nra).
    split.
    + rewrite Hsj. apply truediv_nonzero. lra.
    + unfold swamee_jain_formula. fold l. apply Rdiv_lt_0_compat; lra.
Qed.

(** ** Bounding quotients *)

Lemma Rdiv_le_upper (a b c : R) : 0 < b -> a <= c * b -> a / b <= c.
Proof.
  intros Hb H. apply Rmult_le_reg_r with b; [assumption | ].
  unfold Rdiv. rewrite Rmult_assoc, Rinv_l by lra. lra.
Qed.

Lemma Rdiv_lt_upper (a b c : R) : 0 < b -> a < c * b -> a / b < c.
Proof.
  intros Hb H. apply Rmult_lt_reg_r with b; [assumption | ].
  unfold Rdiv. rewrite Rmult_assoc, Rinv_l by lra. lra.
Qed.

Lemma Rdiv_lt_lower (a b c : R) : 0 < b -> c * b < a -> c < a / b.
Proof.
  intros Hb H. apply Rmult_lt_reg_r with b; [assumption | ].
  unfold Rdiv. rewrite Rmult_assoc, Rinv_l by lra. lra.
Qed.

(** [0.25 / l^2] against the bounds of the acceptance test. *)
Lemma quarter_over_square_small (l : R) : l < - (1 / 2) -> 0 < 0.25 / l ^ 2 < 1.
Proof.
  intros Hl. assert (Hsq : 0.25 < l ^ 2) by (simpl; nra).
  split.
  - apply Rdiv_lt_0_compat; lra.
  - apply Rdiv_lt_upper; lra.
Qed.

Lemma quarter_over_square_large (l : R) : 0 < l -> l < 1 / 4 -> 4 < 0.25 / l ^ 2.
Proof.
  intros Hpos Hl. assert (Hsq : 0 < l ^ 2 < 1 / 16) by (simpl; nra).
  apply Rdiv_lt_lower; lra.
Qed.

Lemma one_over_square_large (r : R) : - (1 / 2) < r -> r < 0 -> 4 < 1 / r ^ 2.
Proof.
  intros Hlo Hhi. assert (Hsq : 0 < r ^ 2 < 1 / 4) by (simpl; nra).
  apply Rdiv_lt_lower; lra.
Qed.

(** The selection made by the resolver in the turbulent regime. *)
Lemma friction_factor_turbulent (Re eps D : R) :
  2300 <= Re -> 0 <= eps -> 0 < D ->
  friction_factor Re eps D
  = if Rltb 0 (swamee_jain_formula Re eps D)
       && Rltb (swamee_jain_formula Re eps D) 1
    then Return (swamee_jain_formula Re eps D)
    else friction_factor_colebrook Re eps D
           f0_default max_iter_default tol_default.
Proof.
  intros HRe Heps HD. unfold friction_factor.
  rewrite Rleb_false by lra. rewrite Rltb_false by lra. cbv zeta.
  destruct (friction_factor_swamee_jain_eval Re eps D) as
    [(_ & Hsj & Hf) | (_ & Hsj & _)]; try lra; rewrite Hsj.
  - rewrite Hf. rewrite (Rltb_false 0 0) by lra. reflexivity.
  - reflexivity.
Qed.

(** For a relative roughness of at most one half the correlation is always
    accepted. *)
Lemma swamee_jain_formula_accepted (Re eps D : R) :
  2300 <= Re -> 0 <= eps -> 0 < D -> eps <= D / 2 ->
  0 < swamee_jain_formula Re eps D < 1.
Proof.
  intros HRe Heps HD Hrel.
  pose proof (swamee_jain_argument_pos Re eps D ltac:(lra) Heps HD) as Harg.
  pose proof (Rpower_pos Re 0.9) as Hp.
  assert (HA : eps / (3.7 * D) <= 0.136) by (apply Rdiv_le_upper; lra).
  assert (Hsqrt : 47 <= sqrt Re).
  { replace 47 with (sqrt (47 * 47)) by (apply sqrt_square; lra).
    apply sqrt_le_1_alt. lra. }
  pose proof (Rpower_09_sqrt Re ltac:(lra)) as Hpow.
  assert (HB : 5.74 / Rpower Re 0.9 <= 0.123) by (apply Rdiv_le_upper; lra).
  unfold swamee_jain_formula. apply quarter_over_square_small.
  apply log10_lt_neg_half; [assumption | ].
  simpl. nra.
Qed.

(** ** The Colebrook-White relaxation *)

Lemma colebrook_proposal_pos (Re eps D f : R) :
  colebrook_rhs Re eps D f <> 0 -> 0 < colebrook_proposal Re eps D f.
Proof.
  intros Hr. unfold colebrook_proposal.
  apply Rdiv_lt_0_compat; [lra | ]. simpl. nra.
Qed.

Section ValidInputs.

(** The preconditions of the solver: a positive Reynolds number, a
    roughness that is not negative, a positive diameter. *)
Variables Re eps D tol : R.
Hypothesis HRe : 0 < Re.
Hypothesis Heps : 0 <= eps.
Hypothesis HD : 0 < D.

Lemma colebrook_argument_pos (f : R) :
  0 < f -> 0 < eps / (3.7 * D) + 2.51 / (Re * sqrt f).
Proof.
  intros Hf. pose proof (sqrt_lt_R0 f Hf) as Hs.
  assert (0 <= eps / (3.7 * D)).
  { apply Rmult_le_pos; [assumption | ].
    apply Rlt_le, Rinv_0_lt_compat. lra. }
  assert (0 < Re * sqrt f) by (apply Rmult_lt_0_compat; assumption).
  assert (0 < 2.51 / (Re * sqrt f)) by (apply Rdiv_lt_0_compat; lra).
  lra.
Qed.

(** One pass of the loop from a positive iterate: the pass raises when the
    right-hand side is zero, and otherwise does what the specification
    says. *)
Lemma colebrook_step_eval (f : R) :
  0 < f ->
  colebrook_step Re eps D tol f
  = if Req_dec_T (colebrook_rhs Re eps D f) 0 then Raise ZeroDivisionError
    else
      let f_new := colebrook_proposal Re eps D f in
      if Rltb (Rabs (f_new - f)) tol then Return (inl f_new)
      else Return (inr (0.5 * (f + f_new))).
Proof.
  intros Hf.
  pose proof (sqrt_lt_R0 f Hf) as Hs.
  pose proof (colebrook_argument_pos f Hf) as Harg.
  assert (HA : eps / D / 3.7 = eps / (3.7 * D)) by (decimals; field; lra).
  assert (Hden : Re * sqrt f <> 0) by (apply Rgt_not_eq; nra).
  unfold colebrook_step.
  rewrite math_sqrt_nonneg by lra. rewrite bind_Return.
  rewrite (truediv_nonzero 1) by lra. rewrite bind_Return.
  rewrite (truediv_nonzero eps D) by lra. rewrite bind_Return.
  rewrite bind_Return.
  rewrite (truediv_nonzero 2.51) by assumption. rewrite bind_Return.
  rewrite HA, math_log10_pos by assumption. rewrite bind_Return. cbv zeta.
  fold (colebrook_rhs Re eps D f).
  destruct (Req_dec_T (colebrook_rhs Re eps D f) 0) as [Hr | Hr].
  - rewrite Hr. replace (0 ^ 2) with 0 by (simpl; ring).
    rewrite truediv_zero. reflexivity.
  - rewrite truediv_nonzero by (apply pow_nonzero; assumption).
    reflexivity.
Qed.

(** The loop against the relaxation of the specification, from a positive
    seed. *)
Lemma colebrook_loop_eval (n : nat) :
  forall f : R, 0 < f ->
  (rhs_vanishes n Re eps D tol f ->
     colebrook_loop n Re eps D tol f = Raise ZeroDivisionError) /\
  (~ rhs_vanishes n Re eps D tol f ->
     colebrook_loop n Re eps D tol f
     = Return (colebrook_relaxation n Re eps D tol f) /\
     0 < colebrook_relaxation n Re eps D tol f).
Proof.
  induction n as [ | n' IH]; intros f Hf.
  - split; [intros [] | intros _; split; [reflexivity | assumption]].
  - cbn [colebrook_loop rhs_vanishes colebrook_relaxation].
    rewrite colebrook_step_eval by assumption.
    destruct (Req_dec_T (colebrook_rhs Re eps D f) 0) as [Hr | Hr].
    + split; [reflexivity | ]. intros Hnot. exfalso. apply Hnot. now left.
    + pose proof (colebrook_proposal_pos Re eps D f Hr) as Hnew. cbv zeta.
      destruct (Rltb (Rabs (colebrook_proposal Re eps D f - f)) tol) eqn:Htol.
      * split.
        -- intros [H | (_ & H & _)]; [contradiction | discriminate].
        -- intros _. split; [reflexivity | assumption].
      * assert (Hf' : 0 < 0.5 * (f + colebrook_proposal Re eps D f)) by lra.
        destruct (IH _ Hf') as [IHraise IHret]. rewrite bind_Return. split.
        -- intros [H | (_ & _ & H)]; [contradiction | now apply IHraise].
        -- intros Hnot. apply IHret. intros H. apply Hnot. right. auto.
Qed.

(** Whatever the loop returns from a positive seed is positive. *)
Lemma colebrook_loop_pos (n : nat) :
  forall f r : R, 0 < f ->
  colebrook_loop n Re eps D tol f = Return r -> 0 < r.
Proof.
  induction n as [ | n' IH]; intros f r Hf H.
  - injection H as <-. assumption.
  - cbn [colebrook_loop] in H. rewrite colebrook_step_eval in H by assumption.
    destruct (Req_dec_T (colebrook_rhs Re eps D f) 0) as [Hr | Hr];
      [discriminate | ].
    pose proof (colebrook_proposal_pos Re eps D f Hr) as Hnew. cbv zeta in H.
    destruct (Rltb (Rabs (colebrook_proposal Re eps D f - f)) tol).
    + injection H as <-. assumption.
    + rewrite bind_Return in H. apply IH in H; [assumption | lra].
Qed.

End ValidInputs.

(** In a pipe so rough that [eps >= 3.7 D] the argument of the logarithm
    exceeds 1 and the right-hand side is negative at every iterate. *)
Lemma colebrook_rhs_rough (Re eps D f : R) :
  0 < Re -> 0 < D -> 3.7 * D <= eps -> 0 < f -> colebrook_rhs Re eps D f < 0.
Proof.
  intros HRe HD Hrough Hf. pose proof (sqrt_lt_R0 f Hf) as Hs.
  assert (1 <= eps / (3.7 * D)).
  { apply Rmult_le_reg_r with (3.7 * D); [lra | ].
    unfold Rdiv. rewrite Rmult_assoc, Rinv_l by lra. lra. }
  assert (0 < Re * sqrt f) by (apply Rmult_lt_0_compat; assumption).
  assert (0 < 2.51 / (Re * sqrt f)) by (apply Rdiv_lt_0_compat; lra).
  unfold colebrook_rhs.
  pose proof (log10_pos (eps / (3.7 * D) + 2.51 / (Re * sqrt f)) ltac:(lra)).
  lra.
Qed.

Lemma rhs_never_vanishes_rough (Re eps D tol : R) :
  0 < Re -> 0 < D -> 3.7 * D <= eps ->
  forall (n : nat) (f : R), 0 < f -> ~ rhs_vanishes n Re eps D tol f.
Proof.
  intros HRe HD Hrough. induction n as [ | n IH]; intros f Hf; simpl.
  - tauto.
  - pose proof (colebrook_rhs_rough Re eps D f HRe HD Hrough Hf) as Hneg.
    intros [H | (Hr & _ & H)]; [lra | ].
    pose proof (colebrook_proposal_pos Re eps D f Hr) as Hnew.
    revert H. apply IH. lra.
Qed.

(** The solver on valid inputs, for any positive seed, cap and tolerance. *)
Lemma friction_factor_colebrook_eval (Re eps D f0 : R) (max_iter : nat) (tol : R) :
  0 < Re -> 0 <= eps -> 0 < D -> 0 < f0 ->
  (rhs_vanishes max_iter Re eps D tol f0 ->
     friction_factor_colebrook Re eps D f0 max_iter tol
     = Raise ZeroDivisionError) /\
  (~ rhs_vanishes max_iter Re eps D tol f0 ->
     friction_factor_colebrook Re eps D f0 max_iter tol
     = Return (colebrook_relaxation max_iter Re eps D tol f0) /\
     0 < colebrook_relaxation max_iter Re eps D tol f0).
Proof.
  intros HRe Heps HD Hf0. unfold friction_factor_colebrook.
  rewrite Rleb_false by assumption.
  now apply colebrook_loop_eval.
Qed.

(** ** A very rough pipe: [Re = 10000], [eps = 5.55], [D = 1]

    The relative roughness is far outside engineering practice, but the
    inputs are valid: [eps / (3.7 D) = 1.5], so both correlations take the
    logarithm of a number a little above 1.5. *)

Lemma rough_pipe_swamee_jain_rejected : 4 < swamee_jain_formula 10000 5.55 1.
Proof.
  pose proof (Rpower_pos 10000 0.9) as Hp.
  assert (Hsqrt : sqrt 10000 = 100).
  { replace 10000 with (100 * 100) by lra. apply sqrt_square. lra. }
  pose proof (Rpower_09_sqrt 10000 ltac:(lra)) as Hpow. rewrite Hsqrt in Hpow.
  assert (HA : 5.55 / (3.7 * 1) = 1.5) by lra.
  assert (HB : 0 < 5.74 / Rpower 10000 0.9 <= 0.0574).
  { split; [apply Rdiv_lt_0_compat; lra | apply Rdiv_le_upper; lra]. }
  unfold swamee_jain_formula. rewrite HA.
  set (x := 1.5 + 5.74 / Rpower 10000 0.9) in *.
  assert (Hx : 1.5 < x <= 1.5574) by (unfold x; lra).
  apply quarter_over_square_large.
  - apply log10_pos. lra.
  - apply log10_lt_quarter; [lra | ].
    apply Rle_lt_trans with (1.5574 ^ 4); [apply pow_incr; lra | lra].
Qed.

Lemma rough_pipe_proposal_large (f : R) :
  0.02 <= f -> 4 < colebrook_proposal 10000 5.55 1 f.
Proof.
  intros Hf.
  assert (Hsqrt : 0.1 <= sqrt f).
  { replace 0.1 with (sqrt (0.1 * 0.1)) by (apply sqrt_square; lra).
    apply sqrt_le_1_alt. lra. }
  assert (HA : 5.55 / (3.7 * 1) = 1.5) by lra.
  assert (HB : 0 < 2.51 / (10000 * sqrt f) <= 0.00251).
  { split; [apply Rdiv_lt_0_compat; lra | apply Rdiv_le_upper; lra]. }
  unfold colebrook_proposal, colebrook_rhs. rewrite HA.
  set (x := 1.5 + 2.51 / (10000 * sqrt f)) in *.
  assert (Hx : 1.5 < x <= 1.50251) by (unfold x; lra).
  assert (Hlo : 0 < log10 x) by (apply log10_pos; lra).
  assert (Hhi : log10 x < 1 / 4).
  { apply log10_lt_quarter; [lra | ].
    apply Rle_lt_trans with (1.50251 ^ 4); [apply pow_incr; lra | lra]. }
  apply one_over_square_large; lra.
Qed.

Lemma rough_pipe_relaxation_large (tol : R) (n : nat) (f : R) :
  0.02 <= f -> 2 < colebrook_relaxation (S n) 10000 5.55 1 tol f.
Proof.
  revert f. induction n as [ | n IH]; intros f Hf;
    pose proof (rough_pipe_proposal_large f Hf) as Hnew;
    cbn [colebrook_relaxation]; cbv zeta;
    destruct (Rltb (Rabs (colebrook_proposal 10000 5.55 1 f - f)) tol).
  - lra.
  - lra.
  - lra.
  - apply IH. lra.
Qed.

(** C2.  In the turbulent regime the resolver returns the Swamee-Jain value
    [0.25 / log10(eps/(3.7 D) + 5.74/Re^0.9)^2] of the specification when
    that value lies strictly between 0 and 1, and otherwise the outcome of
    the Colebrook solver called on the same [Re], [eps], [D] with its
    default seed, iteration cap and tolerance. *)
Theorem friction_factor_turbulent_selection (Re eps D : R) :
  2300 <= Re -> 0 <= eps -> 0 < D ->
  (0 < swamee_jain_formula Re eps D < 1 ->
     friction_factor Re eps D = Return (swamee_jain_formula Re eps D)) /\
  (~ (0 < swamee_jain_formula Re eps D < 1) ->
     friction_factor Re eps D
     = friction_factor_colebrook Re eps D 0.02 50 1e-6).
Proof.
  intros HRe Heps HD. rewrite friction_factor_turbulent by assumption.
  split.
  - intros [Hlo Hhi]. now rewrite !Rltb_true.
  - intros Hout.
    destruct (Rlt_dec 0 (swamee_jain_formula Re eps D)) as [Hlo | Hlo].
    + rewrite (Rltb_true _ _ Hlo), Rltb_false by lra. reflexivity.
    + rewrite Rltb_false by lra. reflexivity.
Qed.

Lemma friction_factor_turbulent_selection_witness :
  friction_factor 1e5 1e-5 0.1 = Return (swamee_jain_formula 1e5 1e-5 0.1) /\
  friction_factor 10000 5.55 1
  = friction_factor_colebrook 10000 5.55 1 0.02 50 1e-6.
Proof.
  split.
  - apply (friction_factor_turbulent_selection 1e5 1e-5 0.1); [lra | lra | lra | ].
    apply swamee_jain_formula_accepted; lra.
  - apply (friction_factor_turbulent_selection 10000 5.55 1); [lra | lra | lra | ].
    pose proof rough_pipe_swamee_jain_rejected. lra.
Defined.

(** The resolver falls back to the solver there, and the solver returns a
    friction factor above 2. *)
Lemma rough_pipe_friction_factor :
  friction_factor 10000 5.55 1
  = Return (colebrook_relaxation 50 10000 5.55 1 1e-6 0.02) /\
  2 < colebrook_relaxation 50 10000 5.55 1 1e-6 0.02.
Proof.
  split.
  - rewrite friction_factor_turbulent by lra.
    pose proof rough_pipe_swamee_jain_rejected as Hsj.
    rewrite (Rltb_false (swamee_jain_formula 10000 5.55 1) 1) by lra.
    rewrite andb_false_r.
    apply (friction_factor_colebrook_eval 10000 5.55 1 0.02 50 1e-6);
      [lra | lra | lra | lra | ].
    apply rhs_never_vanishes_rough; lra.
  - apply (rough_pipe_relaxation_large 1e-6 49). lra.
Qed.

(** ** The range of the turbulent friction factor *)

Lemma Rltb_true_inv (x y : R) : Rltb x y = true -> x < y.
Proof. unfold Rltb. destruct (Rlt_dec x y); [trivial | discriminate]. Qed.

(** For a relative roughness of at most one half the resolver returns the
    Swamee-Jain value. *)
Lemma friction_factor_swamee_jain_branch (Re eps D : R) :
  2300 <= Re -> 0 <= eps -> 0 < D -> eps <= D / 2 ->
  friction_factor Re eps D = Return (swamee_jain_formula Re eps D).
Proof.
  intros HRe Heps HD Hrel.
  pose proof (swamee_jain_formula_accepted Re eps D HRe Heps HD Hrel)
    as [Hlo Hhi].
  rewrite friction_factor_turbulent by assumption.
  rewrite !Rltb_true by assumption. reflexivity.
Qed.

(** C1, as the code has it.  In the turbulent regime every friction factor
    that the resolver returns is positive.  It is below 1 whenever the
    Swamee-Jain value is the one returned, which is always the case for a
    relative roughness [eps / D] of at most one half; a returned value of 1
    or more comes from the Colebrook fallback, which is not bounded by 1. *)
Theorem friction_factor_turbulent_range (Re eps D : R) :
  2300 <= Re -> 0 <= eps -> 0 < D ->
  (forall f, friction_factor Re eps D = Return f -> 0 < f) /\
  (forall f, friction_factor Re eps D = Return f -> 1 <= f ->
     friction_factor_colebrook Re eps D 0.02 50 1e-6 = Return f) /\
  (eps <= D / 2 ->
     friction_factor Re eps D = Return (swamee_jain_formula Re eps D) /\
     0 < swamee_jain_formula Re eps D < 1).
Proof.
  intros HRe Heps HD. rewrite friction_factor_turbulent by assumption.
  split; [ | split].
  - intros f.
    destruct (Rltb 0 (swamee_jain_formula Re eps D)) eqn:Hlo; cbn [andb].
    + destruct (Rltb (swamee_jain_formula Re eps D) 1).
      * intros H. injection H as <-. now apply Rltb_true_inv.
      * unfold friction_factor_colebrook. rewrite Rleb_false by lra.
        apply colebrook_loop_pos; try assumption; unfold f0_default; lra.
    + unfold friction_factor_colebrook. rewrite Rleb_false by lra.
      apply colebrook_loop_pos; try assumption; unfold f0_default; lra.
  - intros f.
    destruct (Rltb 0 (swamee_jain_formula Re eps D)); cbn [andb].
    + destruct (Rltb (swamee_jain_formula Re eps D) 1) eqn:Hhi.
      * intros H. injection H as <-. apply Rltb_true_inv in Hhi. lra.
      * intros H _. exact H.
    + intros H _. exact H.
  - intros Hrel.
    pose proof (swamee_jain_formula_accepted Re eps D HRe Heps HD Hrel)
      as [Hlo Hhi].
    rewrite !Rltb_true by assumption. split; [reflexivity | lra].
Qed.

Lemma friction_factor_turbulent_range_witness :
  0 < colebrook_relaxation 50 10000 5.55 1 1e-6 0.02 /\
  friction_factor_colebrook 10000 5.55 1 0.02 50 1e-6
  = Return (colebrook_relaxation 50 10000 5.55 1 1e-6 0.02) /\
  friction_factor 1e5 1e-5 0.1 = Return (swamee_jain_formula 1e5 1e-5 0.1) /\
  0 < swamee_jain_formula 1e5 1e-5 0.1 < 1.
Proof.
  destruct rough_pipe_friction_factor as [Hrun Hlarge].
  destruct (friction_factor_turbulent_range 10000 5.55 1)
    as (Hpos & Hfallback & _); [lra | lra | lra | ].
  destruct (friction_factor_turbulent_range 1e5 1e-5 0.1)
    as (_ & _ & Hsmooth); [lra | lra | lra | ].
  split; [exact (Hpos _ Hrun) | ].
  split; [apply (Hfallback _ Hrun); lra | ].
  apply Hsmooth. lra.
Defined.

(** C1 as stated fails: the friction factor is not always below 1.  At
    [Re = 10000], [eps = 5.55], [D = 1] the Swamee-Jain value is above 4,
    hence refused, and the Colebrook fallback returns a value above 2 (it
    converges near 8). *)
Lemma friction_factor_not_below_one :
  2300 <= 10000 /\ 0 <= 5.55 /\ 0 < 1 /\
  exists f, friction_factor 10000 5.55 1 = Return f /\ 2 < f /\ ~ (0 < f < 1).
Proof.
  destruct rough_pipe_friction_factor as [Hrun Hlarge].
  split; [lra | split; [lra | split; [lra | ]]].
  exists (colebrook_relaxation 50 10000 5.55 1 1e-6 0.02).
  split; [exact Hrun | split; [exact Hlarge | lra]].
Qed.

(** ** The orchestrator *)

(** The part of [analyze_pipe_flow] that follows the choice of the
    velocity. *)
Lemma analyze_pipe_flow_velocity
  (Q : option R) (v D L eps_rel : R) (rho mu nu : option R) (K_total : R) :
  analyze_pipe_flow Q (Some v) D L eps_rel rho mu nu K_total
  = analyze_pipe_flow None (Some v) D L eps_rel rho mu nu K_total.
Proof. destruct Q; reflexivity. Qed.

Lemma analyze_pipe_flow_flowrate
  (q D L eps_rel : R) (rho mu nu : option R) (K_total : R) :
  analyze_pipe_flow (Some q) None D L eps_rel rho mu nu K_total
  = (v <- velocity_from_flowrate q D ;;
     analyze_pipe_flow None (Some v) D L eps_rel rho mu nu K_total).
Proof. reflexivity. Qed.

(** A laminar run, evaluated: the fields of the result in closed form. *)
Lemma analyze_pipe_flow_laminar
  (Q : option R) (v D L eps_rel rho m K_total : R) :
  D <> 0 -> rho <> 0 -> m <> 0 ->
  0 < v * D / (m / rho) -> v * D / (m / rho) < 2300 ->
  let Re := v * D / (m / rho) in
  let h_f := 64 / Re * (L / D) * v ^ 2 / (2 * g) in
  let h_minor := K_total * v ^ 2 / (2 * g) in
  analyze_pipe_flow Q (Some v) D L eps_rel (Some rho) (Some m) None K_total
  = Return (FlowResult.mk Re (64 / Re) v h_f h_minor (h_f + h_minor)
              (rho * g * (h_f + h_minor))).
Proof.
  intros HD Hrho Hm Hpos Hlam Re h_f h_minor.
  rewrite analyze_pipe_flow_velocity. unfold analyze_pipe_flow.
  rewrite reynolds_number_mu by assumption. rewrite bind_Return.
  rewrite friction_factor_laminar_branch by assumption. rewrite bind_Return.
  unfold head_loss_darcy. rewrite truediv_nonzero by assumption.
  reflexivity.
Qed.

Lemma analyze_pipe_flow_raise
  (Q V : option R) (D L eps_rel : R) (rho mu nu : option R) (K_total : R)
  (e : exn) :
  analyze_pipe_flow Q V D L eps_rel rho mu nu K_total = Raise e ->
  (e = ValueError "Provide Q or V" /\ Q = None /\ V = None) \/
  e = ValueError "rho required" \/
  e = ValueError "Provide mu or nu" \/
  e = ValueError "Re must be positive" \/
  e = ValueError "math domain error" \/
  e = ZeroDivisionError.
Proof.
  assert (Hrest : forall v,
    analyze_pipe_flow None (Some v) D L eps_rel rho mu nu K_total = Raise e ->
    e = ValueError "rho required" \/
    e = ValueError "Provide mu or nu" \/
    e = ValueError "Re must be positive" \/
    e = ValueError "math domain error" \/
    e = ZeroDivisionError).
  { intros v H. unfold analyze_pipe_flow in H.
    destruct rho as [r | ]; [ | injection H as <-; auto].
    apply bind_Raise_inv in H. destruct H as [H | (Re & _ & H)].
    - apply reynolds_number_raise in H. destruct H as [-> | (-> & _)]; auto 6.
    - apply bind_Raise_inv in H. destruct H as [H | (f & _ & H)].
      + apply friction_factor_raise in H.
        destruct H as [(-> & _) | (_ & [-> | ->])]; auto 6.
      + unfold head_loss_darcy in H. raise_inv H. subst e. auto 6. }
  destruct V as [v | ].
  - rewrite analyze_pipe_flow_velocity. intros H. right. now apply (Hrest v).
  - destruct Q as [q | ].
    + rewrite analyze_pipe_flow_flowrate. intros H.
      apply bind_Raise_inv in H. destruct H as [H | (v & _ & H)].
      * unfold velocity_from_flowrate in H. raise_inv H. subst e. auto 6.
      * right. now apply (Hrest v).
    + simpl. intros H. injection H as <-. auto.
Qed.

(** The velocity of a flow rate of [1e-5] m3/s in a pipe of diameter
    [0.05] m, and the bounds that make the flow of water laminar. *)
Lemma small_flowrate_velocity :
  velocity_from_flowrate 1e-5 0.05 = Return (0.016 / PI) /\
  0 < 0.016 / PI < 0.006.
Proof.
  pose proof PI_RGT_0 as Hpos. pose proof PI2_3_2 as H3.
  split.
  - unfold velocity_from_flowrate.
    rewrite truediv_nonzero by (apply PI_area_nonzero; lra).
    apply f_equal. decimals. field. lra.
  - split.
    + apply Rdiv_lt_0_compat; lra.
    + apply Rmult_lt_reg_r with PI; [assumption | ].
      unfold Rdiv. rewrite Rmult_assoc, Rinv_l by lra. lra.
Qed.

(** The velocity recorded in the result is the one supplied. *)
Lemma analyze_pipe_flow_velocity_field
  (Q : option R) (v D L eps_rel : R) (rho mu nu : option R) (K_total : R)
  (r : FlowResult.t) :
  analyze_pipe_flow Q (Some v) D L eps_rel rho mu nu K_total = Return r ->
  FlowResult.V r = v.
Proof.
  rewrite analyze_pipe_flow_velocity. unfold analyze_pipe_flow. intros H.
  destruct rho as [rho0 | ]; [ | discriminate].
  apply bind_Return_inv in H. destruct H as (Re & _ & H).
  apply bind_Return_inv in H. destruct H as (f & _ & H).
  apply bind_Return_inv in H. destruct H as (h & _ & H).
  cbv zeta in H. injection H as <-. reflexivity.
Qed.

(** C4, as the code has it.  The flow specification is rejected, with the
    [ValueError] "Provide Q or V", exactly when neither [Q] nor [V] is
    supplied.  When both are supplied the call is not rejected: it goes on
    with [V] and ignores [Q], as the call with [V] alone does, and a
    result records that [V].  When only [Q] is supplied the velocity is
    derived from it by [velocity_from_flowrate], and a result records
    [Q / (PI D^2 / 4)]. *)
Theorem analyze_pipe_flow_flow_spec
  (Q V : option R) (D L eps_rel : R) (rho mu nu : option R) (K_total : R) :
  (analyze_pipe_flow Q V D L eps_rel rho mu nu K_total
   = Raise (ValueError "Provide Q or V")
   <-> Q = None /\ V = None) /\
  (forall q v, Q = Some q -> V = Some v ->
     analyze_pipe_flow Q V D L eps_rel rho mu nu K_total
     = analyze_pipe_flow None (Some v) D L eps_rel rho mu nu K_total) /\
  (forall v r, V = Some v ->
     analyze_pipe_flow Q V D L eps_rel rho mu nu K_total = Return r ->
     FlowResult.V r = v) /\
  (forall q, Q = Some q -> V = None ->
     analyze_pipe_flow Q V D L eps_rel rho mu nu K_total
     = (v <- velocity_from_flowrate q D ;;
        analyze_pipe_flow None (Some v) D L eps_rel rho mu nu K_total)) /\
  (forall q r, Q = Some q -> V = None ->
     analyze_pipe_flow Q V D L eps_rel rho mu nu K_total = Return r ->
     velocity_from_flowrate q D = Return (FlowResult.V r) /\
     FlowResult.V r = q / (PI * D ^ 2 / 4)).
Proof.
  split; [ | split; [ | split; [ | split]]].
  - split.
    + intros H. apply analyze_pipe_flow_raise in H.
      destruct H as [(_ & HQ & HV) | [H | [H | [H | [H | H]]]]];
        [auto | discriminate ..].
    + intros [-> ->]. reflexivity.
  - intros q v -> ->. apply analyze_pipe_flow_velocity.
  - intros v r ->. apply analyze_pipe_flow_velocity_field.
  - intros q -> ->. apply analyze_pipe_flow_flowrate.
  - intros q r -> ->. rewrite analyze_pipe_flow_flowrate. intros H.
    apply bind_Return_inv in H. destruct H as (v & Hv & H).
    apply analyze_pipe_flow_velocity_field in H. rewrite H.
    split; [exact Hv | ].
    unfold velocity_from_flowrate in Hv.
    destruct (truediv_cases q (PI * D ^ 2 / 4)) as [[_ E] | [_ E]];
      cbv zeta in Hv; rewrite E in Hv; [discriminate | ].
    injection Hv as <-. reflexivity.
Qed.

Lemma analyze_pipe_flow_flow_spec_witness :
  analyze_pipe_flow None None 0.05 10 1e-5 (Some 998) (Some 0.001) None 0
  = Raise (ValueError "Provide Q or V") /\
  analyze_pipe_flow (Some 0.01) (Some 1) 0.05 10 1e-5 (Some 998) (Some 0.001) None 0
  = analyze_pipe_flow None (Some 1) 0.05 10 1e-5 (Some 998) (Some 0.001) None 0 /\
  exists r,
    analyze_pipe_flow (Some 1e-5) None 0.05 10 1e-5
      (Some 998) (Some 0.001) None 0 = Return r /\
    FlowResult.V r = 1e-5 / (PI * 0.05 ^ 2 / 4).
Proof.
  split; [ | split].
  - apply (analyze_pipe_flow_flow_spec None None). split; reflexivity.
  - apply (proj1 (proj2 (analyze_pipe_flow_flow_spec (Some 0.01) (Some 1)
                    0.05 10 1e-5 (Some 998) (Some 0.001) None 0)) 0.01 1);
      reflexivity.
  - destruct small_flowrate_velocity as [Hv [Hlo Hhi]].
    assert (Hrun : exists r,
      analyze_pipe_flow (Some 1e-5) None 0.05 10 1e-5
        (Some 998) (Some 0.001) None 0 = Return r).
    { eexists. rewrite analyze_pipe_flow_flowrate, Hv, bind_Return.
      apply analyze_pipe_flow_laminar; lra. }
    destruct Hrun as [r Hr]. exists r. split; [exact Hr | ].
    destruct (analyze_pipe_flow_flow_spec (Some 1e-5) None
                0.05 10 1e-5 (Some 998) (Some 0.001) None 0)
      as (_ & _ & _ & _ & HQ).
    exact (proj2 (HQ 1e-5 r eq_refl eq_refl Hr)).
Defined.

(** C4 as stated fails: a call that supplies both [Q] and [V] is not
    rejected.  With [Q = 0.01] and [V = 0.02] in a pipe of diameter [0.05],
    water ([rho = 998], [mu = 0.001]), the call returns the laminar result
    at [Re = 998]. *)
Lemma analyze_pipe_flow_both_given :
  exists r,
    analyze_pipe_flow (Some 0.01) (Some 0.02) 0.05 10 1e-5
      (Some 998) (Some 0.001) None 0 = Return r /\
    FlowResult.V r = 0.02 /\ FlowResult.Re r = 998.
Proof.
  eexists. split.
  - apply analyze_pipe_flow_laminar; lra.
  - cbn [FlowResult.V FlowResult.Re]. split; [reflexivity | lra].
Qed.

(** C10.  A supplied velocity takes precedence: whatever is passed for [Q]
    (another flow rate, or nothing) the outcome of the call, a result record
    or an exception, is the one of the call with [V] alone, and the
    flow-specification error is never raised. *)
Theorem analyze_pipe_flow_ignores_Q
  (Q Q' : option R) (v D L eps_rel : R) (rho mu nu : option R) (K_total : R) :
  analyze_pipe_flow Q (Some v) D L eps_rel rho mu nu K_total
  = analyze_pipe_flow Q' (Some v) D L eps_rel rho mu nu K_total /\
  analyze_pipe_flow Q (Some v) D L eps_rel rho mu nu K_total
  = analyze_pipe_flow None (Some v) D L eps_rel rho mu nu K_total /\
  analyze_pipe_flow Q (Some v) D L eps_rel rho mu nu K_total
  <> Raise (ValueError "Provide Q or V").
Proof.
  split; [ | split].
  - now rewrite (analyze_pipe_flow_velocity Q), (analyze_pipe_flow_velocity Q').
  - apply analyze_pipe_flow_velocity.
  - intros H. apply analyze_pipe_flow_raise in H.
    destruct H as [(_ & _ & HV) | [H | [H | [H | [H | H]]]]]; discriminate.
Qed.

(** C8.  Mode equivalence: when the analysis of a flow rate [Q0] succeeds,
    the velocity [velocity_from_flowrate Q0 D] is defined and the analysis
    of that velocity, all other arguments equal, returns the same record;
    more generally the two calls have the same outcome as soon as the
    velocity is defined. *)
Theorem analyze_pipe_flow_mode_equivalence
  (Q0 D L eps_rel : R) (rho mu nu : option R) (K_total : R)
  (r : FlowResult.t) :
  analyze_pipe_flow (Some Q0) None D L eps_rel rho mu nu K_total = Return r ->
  exists v,
    velocity_from_flowrate Q0 D = Return v /\
    analyze_pipe_flow None (Some v) D L eps_rel rho mu nu K_total = Return r /\
    analyze_pipe_flow (Some Q0) None D L eps_rel rho mu nu K_total
    = analyze_pipe_flow None (Some v) D L eps_rel rho mu nu K_total.
Proof.
  rewrite analyze_pipe_flow_flowrate. intros H.
  destruct (bind_Return_inv _ _ _ H) as (v & Hv & Hr).
  exists v. split; [assumption | split; [assumption | ]].
  rewrite Hv. reflexivity.
Qed.

Lemma analyze_pipe_flow_mode_equivalence_witness :
  exists v r,
    analyze_pipe_flow (Some 1e-5) None 0.05 10 1e-5
      (Some 998) (Some 0.001) None 0 = Return r /\
    velocity_from_flowrate 1e-5 0.05 = Return v /\
    analyze_pipe_flow None (Some v) 0.05 10 1e-5
      (Some 998) (Some 0.001) None 0 = Return r.
Proof.
  destruct small_flowrate_velocity as [Hv [Hlo Hhi]].
  assert (Hrun : exists r,
    analyze_pipe_flow (Some 1e-5) None 0.05 10 1e-5
      (Some 998) (Some 0.001) None 0 = Return r).
  { eexists. rewrite analyze_pipe_flow_flowrate, Hv, bind_Return.
    apply analyze_pipe_flow_laminar; lra. }
  destruct Hrun as [r Hr].
  destruct (analyze_pipe_flow_mode_equivalence _ _ _ _ _ _ _ _ _ Hr)
    as (v & Hv' & Hr' & _).
  exists v, r. repeat split; assumption.
Defined.

(** A turbulent run in a pipe of relative roughness at most one half,
    evaluated: the friction factor is the Swamee-Jain value. *)
Lemma analyze_pipe_flow_swamee_jain
  (Q : option R) (v D L eps_rel rho m K_total : R) :
  0 < D -> 0 <= eps_rel -> eps_rel <= D / 2 -> rho <> 0 -> m <> 0 ->
  2300 <= v * D / (m / rho) ->
  let Re := v * D / (m / rho) in
  let f := swamee_jain_formula Re eps_rel D in
  let h_f := f * (L / D) * v ^ 2 / (2 * g) in
  let h_minor := K_total * v ^ 2 / (2 * g) in
  analyze_pipe_flow Q (Some v) D L eps_rel (Some rho) (Some m) None K_total
  = Return (FlowResult.mk Re f v h_f h_minor (h_f + h_minor)
              (rho * g * (h_f + h_minor))).
Proof.
  intros HD Heps Hrel Hrho Hm Hturb Re f h_f h_minor.
  rewrite analyze_pipe_flow_velocity. unfold analyze_pipe_flow.
  rewrite reynolds_number_mu by assumption. rewrite bind_Return.
  rewrite friction_factor_swamee_jain_branch by assumption.
  rewrite bind_Return.
  unfold head_loss_darcy. rewrite truediv_nonzero by lra.
  reflexivity.
Qed.

(** The end-to-end case of the specification: [Q = 0.01] m3/s of water
    ([rho = 998], [mu = 0.001]) through 10 m of pipe of diameter 0.05 m and
    roughness 1e-5 m, without fittings.  The velocity is [16 / PI] (about
    5.093), the flow is turbulent, the friction factor is the Swamee-Jain
    value, the minor loss is zero and the pressure drop is
    [rho g h_f]. *)
Example analyze_pipe_flow_end_to_end :
  exists r,
    analyze_pipe_flow (Some 0.01) None 0.05 10 1e-5
      (Some 998) (Some 0.001) None 0 = Return r /\
    FlowResult.V r = 16 / PI /\
    2300 <= FlowResult.Re r /\
    FlowResult.f r = swamee_jain_formula (FlowResult.Re r) 1e-5 0.05 /\
    0 < FlowResult.f r < 1 /\
    0 < FlowResult.h_f r /\
    FlowResult.h_minor r = 0 /\
    FlowResult.deltaP r = 998 * g * FlowResult.h_f r.
Proof.
  pose proof PI_RGT_0 as Hpi. pose proof PI_4 as Hpi4. pose proof g_pos as Hg.
  assert (Hv : velocity_from_flowrate 0.01 0.05 = Return (16 / PI)).
  { unfold velocity_from_flowrate.
    rewrite truediv_nonzero by (apply PI_area_nonzero; lra).
    apply f_equal. decimals. field. lra. }
  assert (Hlo : 4 <= 16 / PI).
  { apply Rmult_le_reg_r with PI; [assumption | ].
    unfold Rdiv. rewrite Rmult_assoc, Rinv_l by lra. lra. }
  assert (Hturb : 2300 <= 16 / PI * 0.05 / (0.001 / 998)) by lra.
  eexists. split.
  - rewrite analyze_pipe_flow_flowrate, Hv, bind_Return.
    apply analyze_pipe_flow_swamee_jain; lra.
  - cbn [FlowResult.V FlowResult.Re FlowResult.f FlowResult.h_f
         FlowResult.h_minor FlowResult.deltaP].
    set (Re := 16 / PI * 0.05 / (0.001 / 998)) in *.
    pose proof (swamee_jain_formula_accepted Re 1e-5 0.05) as Hf.
    set (f := swamee_jain_formula Re 1e-5 0.05) in *.
    assert (Hf' : 0 < f < 1) by (apply Hf; lra).
    assert (Hh : 0 < f * (10 / 0.05) * (16 / PI) ^ 2 / (2 * g)).
    { apply Rdiv_lt_0_compat; [ | lra].
      apply Rmult_lt_0_compat; [apply Rmult_lt_0_compat; lra | ].
      apply pow_lt. lra. }
    assert (Hm : 0 * (16 / PI) ^ 2 / (2 * g) = 0) by (unfold Rdiv; ring).
    repeat split; try reflexivity; lra.
Qed.

(** ** Beyond the resolver's preconditions: what a returned value is *)

Lemma truediv_return (x y r : R) :
  truediv x y = Return r -> y <> 0 /\ r = x / y.
Proof.
  destruct (truediv_cases x y) as [[_ H] | [Hy H]]; rewrite H; intros E.
  - discriminate.
  - injection E as <-. split; [assumption | reflexivity].
Qed.

Lemma inv_square_pos (x r : R) : truediv 1 (x ^ 2) = Return r -> 0 < r.
Proof.
  intros H. apply truediv_return in H. destruct H as [Hnz ->].
  pose proof (pow2_ge_0 x) as Hge.
  apply Rdiv_lt_0_compat; lra.
Qed.

(** One pass of the loop, whatever the inputs: a value that the pass
    returns or hands to the next pass is positive when the iterate is. *)
Lemma colebrook_step_positive (Re eps_rel D tol f : R) (o : R + R) :
  0 < f ->
  colebrook_step Re eps_rel D tol f = Return o ->
  match o with inl v | inr v => 0 < v end.
Proof.
  intros Hf H. unfold colebrook_step in H.
  apply bind_Return_inv in H. destruct H as (s & _ & H).
  apply bind_Return_inv in H. destruct H as (lhs & _ & H).
  apply bind_Return_inv in H. destruct H as (r & _ & H).
  apply bind_Return_inv in H. destruct H as (s' & _ & H).
  apply bind_Return_inv in H. destruct H as (t & _ & H).
  apply bind_Return_inv in H. destruct H as (l & _ & H).
  cbv zeta in H.
  apply bind_Return_inv in H. destruct H as (f_new & Hnew & H).
  apply inv_square_pos in Hnew.
  destruct (Rltb (Rabs (f_new - f)) tol); injection H as <-; lra.
Qed.

Lemma colebrook_loop_positive (Re eps_rel D tol : R) (n : nat) :
  forall f r : R, 0 < f ->
  colebrook_loop n Re eps_rel D tol f = Return r -> 0 < r.
Proof.
  induction n as [ | n IH]; intros f r Hf H.
  - injection H as <-. assumption.
  - cbn [colebrook_loop] in H.
    apply bind_Return_inv in H. destruct H as (o & Ho & H).
    pose proof (colebrook_step_positive _ _ _ _ _ _ Hf Ho) as Hpos.
    destruct o as [f_new | f'].
    + injection H as <-. assumption.
    + now apply (IH f').
Qed.

Lemma friction_factor_colebrook_positive
  (Re eps_rel D f0 : R) (max_iter : nat) (tol r : R) :
  0 < f0 ->
  friction_factor_colebrook Re eps_rel D f0 max_iter tol = Return r -> 0 < r.
Proof.
  intros Hf0. unfold friction_factor_colebrook.
  destruct (Rleb Re 0); [discriminate | ].
  now apply colebrook_loop_positive.
Qed.

Lemma friction_factor_returns_positive (Re eps_rel D f : R) :
  friction_factor Re eps_rel D = Return f -> 0 < Re /\ 0 < f.
Proof.
  unfold friction_factor, Rleb, Rltb at 1.
  destruct (Rle_dec Re 0) as [Hle | Hgt]; [discriminate | ].
  assert (HRe : 0 < Re) by lra.
  assert (Hfallback :
    friction_factor_colebrook Re eps_rel D
      f0_default max_iter_default tol_default = Return f -> 0 < f).
  { apply friction_factor_colebrook_positive. unfold f0_default. lra. }
  destruct (Rlt_dec Re 2300) as [Hlam | Hturb].
  - unfold friction_factor_laminar. intros H.
    apply truediv_return in H. destruct H as [_ ->].
    split; [assumption | apply Rdiv_lt_0_compat; lra].
  - cbv zeta.
    destruct (friction_factor_swamee_jain Re eps_rel D) as [f_sj | e].
    + destruct (Rltb 0 f_sj) eqn:Hlo; cbn [andb].
      * destruct (Rltb f_sj 1).
        -- intros H. injection H as <-.
           split; [assumption | now apply Rltb_true_inv].
        -- intros H. split; [assumption | now apply Hfallback].
      * intros H. split; [assumption | now apply Hfallback].
    + intros H. split; [assumption | now apply Hfallback].
Qed.

(** X1.  Whatever the roughness and the diameter, valid or not, a value
    returned by [friction_factor] is positive (and the Reynolds number was
    positive): a zero or negative friction factor is never handed to the
    head-loss formulas. *)
Theorem friction_factor_positive (Re eps_rel D f : R) :
  friction_factor Re eps_rel D = Return f -> 0 < Re /\ 0 < f.
Proof. apply friction_factor_returns_positive. Qed.

Lemma friction_factor_positive_witness :
  friction_factor 1000 (-1) 0 = Return (64 / 1000) /\
  0 < 1000 /\ 0 < 64 / 1000.
Proof.
  assert (H : friction_factor 1000 (-1) 0 = Return (64 / 1000))
    by (apply friction_factor_laminar_branch; lra).
  split; [exact H | ].
  exact (friction_factor_positive 1000 (-1) 0 (64 / 1000) H).
Defined.

(** ** The resolver on physical inputs *)

Lemma friction_factor_physical (Re eps D : R) :
  0 < Re -> 0 <= eps -> 0 < D -> eps <= D / 2 ->
  exists f, friction_factor Re eps D = Return f /\
            0 < f /\ (f < 1 <-> 64 < Re).
Proof.
  intros HRe Heps HD Hrel.
  destruct (Rlt_dec Re 2300) as [Hlam | Hturb].
  - exists (64 / Re). split; [now apply friction_factor_laminar_branch | ].
    split; [apply Rdiv_lt_0_compat; lra | ]. split.
    + intros H. apply Rmult_lt_compat_r with (r := Re) in H; [ | assumption].
      unfold Rdiv in H. rewrite Rmult_assoc, Rinv_l in H by lra. lra.
    + intros H. apply Rdiv_lt_upper; lra.
  - assert (HRe' : 2300 <= Re) by lra.
    pose proof (swamee_jain_formula_accepted Re eps D HRe' Heps HD Hrel)
      as [Hlo Hhi].
    exists (swamee_jain_formula Re eps D).
    split; [now apply friction_factor_swamee_jain_branch | ].
    split; [assumption | ]. split; intros _; [lra | assumption].
Qed.

(** X2.  For a positive Reynolds number and a relative roughness of at most
    one half the resolver never raises; the friction factor it returns is
    positive, and it is below 1 exactly when [Re > 64] (below that the
    laminar value [64 / Re] is 1 or more). *)
Theorem friction_factor_total_on_physical_inputs (Re eps D : R) :
  0 < Re -> 0 <= eps -> 0 < D -> eps <= D / 2 ->
  exists f, friction_factor Re eps D = Return f /\
            0 < f /\ (f < 1 <-> 64 < Re).
Proof. apply friction_factor_physical. Qed.

Lemma friction_factor_total_on_physical_inputs_witness :
  (exists f, friction_factor 254000 1e-5 0.05 = Return f /\
             0 < f /\ (f < 1 <-> 64 < 254000)) /\
  (exists f, friction_factor 32 1e-5 0.05 = Return f /\
             0 < f /\ (f < 1 <-> 64 < 32)).
Proof.
  split.
  - apply (friction_factor_total_on_physical_inputs 254000 1e-5 0.05); lra.
  - apply (friction_factor_total_on_physical_inputs 32 1e-5 0.05); lra.
Defined.

(** [x^4 > 10^-11] puts [log10 x] above [-11/4]. *)
Lemma log10_gt_neg_11_4 (x : R) :
  0 < x -> / 10 ^ 11 < x ^ 4 -> - (11 / 4) < log10 x.
Proof.
  intros Hx H4. pose proof ln_10_pos as H10.
  assert (Hpow : 0 < 10 ^ 11) by (apply pow_lt; lra).
  assert (Hln : - (11 * ln 10) < 4 * ln x).
  { replace 11 with (INR 11) by (simpl; lra).
    replace 4 with (INR 4) by (simpl; lra).
    rewrite <- !ln_pow by lra.
    rewrite <- ln_Rinv by assumption.
    apply ln_increasing; [apply Rinv_0_lt_compat | ]; assumption. }
  unfold log10. apply Rmult_lt_reg_r with (ln 10); [assumption | ].
  unfold Rdiv at 2. rewrite Rmult_assoc, Rinv_l by lra. lra.
Qed.

Lemma Rpower_09_le (Re : R) : 1 <= Re -> Rpower Re 0.9 <= Re.
Proof.
  intros HRe. rewrite <- (Rpower_1 Re) at 2 by lra.
  apply Rle_Rpower; [assumption | lra].
Qed.

(** X3.  The friction factor jumps at the regime boundary.  For a relative
    roughness of at most one half, every Reynolds number in [[2200, 2300)]
    gets the laminar value, below 0.0291, and every one in [[2300, 2500]]
    gets the Swamee-Jain value, above 0.033: [Re = 2300] itself is treated
    as turbulent. *)
Theorem friction_factor_regime_jump (eps D : R) :
  0 <= eps -> 0 < D -> eps <= D / 2 ->
  (forall Re, 2200 <= Re -> Re < 2300 ->
     friction_factor Re eps D = Return (64 / Re) /\ 64 / Re < 0.0291) /\
  (forall Re, 2300 <= Re -> Re <= 2500 ->
     friction_factor Re eps D = Return (swamee_jain_formula Re eps D) /\
     0.033 < swamee_jain_formula Re eps D).
Proof.
  intros Heps HD Hrel. split.
  - intros Re Hlo Hhi. split.
    + apply friction_factor_laminar_branch; lra.
    + apply Rdiv_lt_upper; lra.
  - intros Re Hlo Hhi. split.
    + now apply friction_factor_swamee_jain_branch.
    + pose proof (Rpower_pos Re 0.9) as Hp.
      pose proof (Rpower_09_le Re ltac:(lra)) as Hle.
      pose proof (Rpower_09_sqrt Re ltac:(lra)) as Hge.
      assert (Hsqrt : 47 <= sqrt Re).
      { replace 47 with (sqrt (47 * 47)) by (apply sqrt_square; lra).
        apply sqrt_le_1_alt. lra. }
      assert (HA : 0 <= eps / (3.7 * D) <= 0.136).
      { split; [ | apply Rdiv_le_upper; lra].
        apply Rmult_le_pos; [assumption | ].
        apply Rlt_le, Rinv_0_lt_compat. lra. }
      assert (HB : 0.00229 < 5.74 / Rpower Re 0.9 <= 0.123).
      { split; [apply Rdiv_lt_lower; lra | apply Rdiv_le_upper; lra]. }
      unfold swamee_jain_formula.
      set (x := eps / (3.7 * D) + 5.74 / Rpower Re 0.9) in *.
      assert (Hx : 0.00229 < x <= 0.259) by (unfold x; lra).
      assert (Hhi' : log10 x < - (1 / 2)).
      { apply log10_lt_neg_half; [lra | ].
        apply Rle_lt_trans with (0.259 ^ 2); [apply pow_incr; lra | lra]. }
      assert (Hlo' : - (11 / 4) < log10 x).
      { apply log10_gt_neg_11_4; [lra | ].
        apply Rlt_le_trans with (0.00229 ^ 4); [lra | apply pow_incr; lra]. }
      assert (Hsq : 0 < log10 x ^ 2 < 7.5625) by (simpl; nra).
      apply Rdiv_lt_lower; lra.
Qed.

Lemma friction_factor_regime_jump_witness :
  (friction_factor 2299 1e-5 0.05 = Return (64 / 2299) /\
   64 / 2299 < 0.0291) /\
  (friction_factor 2300 1e-5 0.05
   = Return (swamee_jain_formula 2300 1e-5 0.05) /\
   0.033 < swamee_jain_formula 2300 1e-5 0.05).
Proof.
  destruct (friction_factor_regime_jump 1e-5 0.05) as [Hlam Hturb];
    [lra | lra | lra | ].
  split; [apply Hlam; lra | apply Hturb; lra].
Defined.

(** ** When the fallback is taken *)

Lemma ln_square (x : R) : 0 < x -> ln (x ^ 2) = 2 * ln x.
Proof.
  intros Hx. rewrite ln_pow by assumption.
  replace (INR 2) with 2 by (simpl; lra). reflexivity.
Qed.

Lemma log10_square_bounds (x : R) :
  0 < x ->
  (log10 x < - (1 / 2) <-> x ^ 2 < 1 / 10) /\
  (1 / 2 < log10 x <-> 10 < x ^ 2).
Proof.
  intros Hx. pose proof ln_10_pos as H10.
  assert (Hsq : 0 < x ^ 2) by (apply pow_lt; assumption).
  assert (Hinv : ln (1 / 10) = - ln 10).
  { unfold Rdiv. rewrite Rmult_1_l. apply ln_Rinv. lra. }
  assert (Hl : log10 x * ln 10 = ln x).
  { unfold log10, Rdiv. rewrite Rmult_assoc, Rinv_l by lra. ring. }
  pose proof (ln_square x Hx) as H2.
  split; split; intros H.
  - apply ln_lt_inv; [assumption | lra | ]. rewrite Hinv, H2. nra.
  - apply ln_increasing in H; [ | assumption]. rewrite Hinv, H2 in H. nra.
  - apply ln_lt_inv; [lra | assumption | ]. rewrite H2. nra.
  - apply ln_increasing in H; [ | lra]. rewrite H2 in H. nra.
Qed.

Lemma quarter_over_square_range (l : R) :
  0 < 0.25 / l ^ 2 < 1 <-> l < - (1 / 2) \/ 1 / 2 < l.
Proof.
  split.
  - intros [Hlo Hhi].
    destruct (Req_dec_T l 0) as [-> | Hl].
    + replace (0 ^ 2) with 0 in Hlo by (simpl; ring).
      unfold Rdiv in Hlo. rewrite Rinv_0 in Hlo. lra.
    + assert (Hsq : 0 < l ^ 2) by (simpl; nra).
      apply Rmult_lt_compat_r with (r := l ^ 2) in Hhi; [ | assumption].
      unfold Rdiv in Hhi. rewrite Rmult_assoc, Rinv_l in Hhi by lra.
      destruct (Rlt_dec l 0); [left | right]; simpl in Hhi; nra.
  - intros H. assert (Hsq : 0.25 < l ^ 2) by (simpl; nra).
    split; [apply Rdiv_lt_0_compat; lra | apply Rdiv_lt_upper; lra].
Qed.

Lemma swamee_jain_formula_range (Re eps D : R) :
  0 < Re -> 0 <= eps -> 0 < D ->
  (0 < swamee_jain_formula Re eps D < 1 <->
   (eps / (3.7 * D) + 5.74 / Rpower Re 0.9) ^ 2 < 1 / 10 \/
   10 < (eps / (3.7 * D) + 5.74 / Rpower Re 0.9) ^ 2).
Proof.
  intros HRe Heps HD.
  pose proof (swamee_jain_argument_pos Re eps D HRe Heps HD) as Harg.
  destruct (log10_square_bounds _ Harg) as [Hlo Hhi].
  unfold swamee_jain_formula. rewrite quarter_over_square_range.
  rewrite Hlo, Hhi. reflexivity.
Qed.

Lemma friction_factor_fallback_taken (Re eps D : R) :
  2300 <= Re -> 0 <= eps -> 0 < D ->
  1 / 10 <= (eps / (3.7 * D) + 5.74 / Rpower Re 0.9) ^ 2 <= 10 ->
  friction_factor Re eps D
  = friction_factor_colebrook Re eps D 0.02 50 1e-6.
Proof.
  intros HRe Heps HD [Hlo Hhi].
  pose proof (swamee_jain_formula_range Re eps D ltac:(lra) Heps HD) as Hrange.
  rewrite friction_factor_turbulent by assumption.
  assert (Hout : ~ (0 < swamee_jain_formula Re eps D < 1)).
  { intros H. apply Hrange in H. lra. }
  destruct (Rlt_dec 0 (swamee_jain_formula Re eps D)) as [Hpos | Hneg].
  - rewrite (Rltb_true _ _ Hpos), Rltb_false by lra. reflexivity.
  - rewrite Rltb_false by lra. reflexivity.
Qed.

(** X4.  The exact condition of the fallback.  With
    [x = eps/(3.7 D) + 5.74/Re^0.9], the turbulent resolver returns the
    Swamee-Jain value when [x^2 < 1/10] or [x^2 > 10], and hands the inputs
    to the Colebrook solver when [1/10 <= x^2 <= 10], that is for [x]
    between about 0.32 and 3.16. *)
Theorem friction_factor_fallback_condition (Re eps D : R) :
  2300 <= Re -> 0 <= eps -> 0 < D ->
  let x := eps / (3.7 * D) + 5.74 / Rpower Re 0.9 in
  (x ^ 2 < 1 / 10 \/ 10 < x ^ 2 ->
     friction_factor Re eps D = Return (swamee_jain_formula Re eps D)) /\
  (1 / 10 <= x ^ 2 <= 10 ->
     friction_factor Re eps D
     = friction_factor_colebrook Re eps D 0.02 50 1e-6).
Proof.
  intros HRe Heps HD x.
  pose proof (swamee_jain_formula_range Re eps D ltac:(lra) Heps HD) as Hrange.
  fold x in Hrange.
  rewrite friction_factor_turbulent by assumption. split.
  - intros H. apply Hrange in H. destruct H as [Hlo Hhi].
    now rewrite !Rltb_true.
  - intros H. rewrite <- friction_factor_turbulent by assumption.
    now apply friction_factor_fallback_taken.
Qed.

Lemma friction_factor_fallback_condition_witness :
  friction_factor 1e5 0 1 = Return (swamee_jain_formula 1e5 0 1) /\
  friction_factor 10000 5.55 1
  = friction_factor_colebrook 10000 5.55 1 0.02 50 1e-6.
Proof.
  split.
  - apply (friction_factor_fallback_condition 1e5 0 1); [lra | lra | lra | ].
    left. pose proof (Rpower_pos 1e5 0.9) as Hp.
    pose proof (Rpower_09_sqrt 1e5 ltac:(lra)) as Hge.
    assert (Hsqrt : 100 <= sqrt 1e5).
    { replace 100 with (sqrt (100 * 100)) by (apply sqrt_square; lra).
      apply sqrt_le_1_alt. lra. }
    assert (HB : 0 < 5.74 / Rpower 1e5 0.9 <= 0.0574).
    { split; [apply Rdiv_lt_0_compat; lra | apply Rdiv_le_upper; lra]. }
    replace (0 / (3.7 * 1)) with 0 by lra. rewrite Rplus_0_l.
    apply Rle_lt_trans with (0.0574 ^ 2); [apply pow_incr; lra | lra].
  - apply (friction_factor_fallback_condition 10000 5.55 1); [lra | lra | lra | ].
    pose proof (Rpower_pos 10000 0.9) as Hp.
    pose proof (Rpower_09_sqrt 10000 ltac:(lra)) as Hge.
    assert (Hsqrt : sqrt 10000 = 100).
    { replace 10000 with (100 * 100) by lra. apply sqrt_square. lra. }
    rewrite Hsqrt in Hge.
    assert (HB : 0 < 5.74 / Rpower 10000 0.9 <= 0.0574).
    { split; [apply Rdiv_lt_0_compat; lra | apply Rdiv_le_upper; lra]. }
    assert (HA : 5.55 / (3.7 * 1) = 1.5) by lra. rewrite HA.
    split.
    + apply Rle_trans with (1.5 ^ 2); [lra | apply pow_incr; lra].
    + apply Rle_trans with (1.5574 ^ 2); [apply pow_incr; lra | lra].
Defined.

(** ** Exceptions of the resolver on valid inputs *)

Lemma colebrook_loop_raise_valid (Re eps D tol : R) :
  0 < Re -> 0 <= eps -> 0 < D ->
  forall (n : nat) (f : R) (e : exn), 0 < f ->
  colebrook_loop n Re eps D tol f = Raise e ->
  e = ZeroDivisionError /\ rhs_vanishes n Re eps D tol f.
Proof.
  intros HRe Heps HD. induction n as [ | n IH]; intros f e Hf H.
  - discriminate.
  - cbn [colebrook_loop] in H.
    rewrite (colebrook_step_eval Re eps D tol HRe Heps HD f Hf) in H.
    cbn [rhs_vanishes].
    destruct (Req_dec_T (colebrook_rhs Re eps D f) 0) as [Hr | Hr].
    + injection H as <-. split; [reflexivity | now left].
    + pose proof (colebrook_proposal_pos Re eps D f Hr) as Hnew.
      cbv zeta in H.
      destruct (Rltb (Rabs (colebrook_proposal Re eps D f - f)) tol) eqn:Htol.
      * discriminate.
      * rewrite bind_Return in H.
        apply IH in H; [ | lra]. destruct H as [-> Hv].
        split; [reflexivity | ]. right. cbv zeta. auto.
Qed.

Lemma friction_factor_raise_valid (Re eps D : R) (e : exn) :
  0 < Re -> 0 <= eps -> 0 < D ->
  friction_factor Re eps D = Raise e ->
  e = ZeroDivisionError /\ 2300 <= Re /\ D / 2 < eps /\
  rhs_vanishes 50 Re eps D 1e-6 0.02.
Proof.
  intros HRe Heps HD H.
  destruct (Rlt_dec Re 2300) as [Hlam | Hturb].
  { rewrite friction_factor_laminar_branch in H by assumption. discriminate. }
  assert (HRe' : 2300 <= Re) by lra.
  destruct (Rle_dec eps (D / 2)) as [Hrel | Hrel].
  { rewrite friction_factor_swamee_jain_branch in H by assumption.
    discriminate. }
  rewrite friction_factor_turbulent in H by assumption.
  destruct (Rltb 0 (swamee_jain_formula Re eps D)
            && Rltb (swamee_jain_formula Re eps D) 1); [discriminate | ].
  unfold friction_factor_colebrook in H. rewrite Rleb_false in H by assumption.
  apply colebrook_loop_raise_valid in H;
    [ | assumption | assumption | assumption | unfold f0_default; lra].
  destruct H as [-> Hv].
  split; [reflexivity | split; [assumption | split; [lra | exact Hv]]].
Qed.

(** ** The Colebrook solver and its seed *)

(** X6.  The seed of the Colebrook solver is not validated.  For [Re > 0]:
    with [max_iter = 0] the seed is returned as it is, even a negative one;
    with at least one pass a negative seed raises the [ValueError] of
    [math.sqrt], a zero seed raises [ZeroDivisionError], and from a
    positive seed every returned value is positive. *)
Theorem friction_factor_colebrook_seed (Re eps_rel D f0 tol : R) :
  0 < Re ->
  friction_factor_colebrook Re eps_rel D f0 0 tol = Return f0 /\
  (forall n, f0 < 0 ->
     friction_factor_colebrook Re eps_rel D f0 (S n) tol
     = Raise (ValueError "math domain error")) /\
  (forall n, f0 = 0 ->
     friction_factor_colebrook Re eps_rel D f0 (S n) tol
     = Raise ZeroDivisionError) /\
  (forall n r, 0 < f0 ->
     friction_factor_colebrook Re eps_rel D f0 n tol = Return r -> 0 < r).
Proof.
  intros HRe. unfold friction_factor_colebrook.
  rewrite Rleb_false by assumption.
  split; [reflexivity | split; [ | split]].
  - intros n Hneg. cbn [colebrook_loop]. unfold colebrook_step, math_sqrt.
    rewrite Rltb_true by assumption. reflexivity.
  - intros n ->. cbn [colebrook_loop]. unfold colebrook_step.
    rewrite math_sqrt_nonneg by lra. rewrite bind_Return.
    rewrite sqrt_0, truediv_zero. reflexivity.
  - intros n r Hpos. now apply colebrook_loop_positive.
Qed.

Lemma friction_factor_colebrook_seed_witness :
  friction_factor_colebrook 1e5 1e-5 0.05 (-1) 0 1e-6 = Return (-1) /\
  friction_factor_colebrook 1e5 1e-5 0.05 (-1) 50 1e-6
  = Raise (ValueError "math domain error") /\
  friction_factor_colebrook 1e5 1e-5 0.05 0 50 1e-6
  = Raise ZeroDivisionError.
Proof.
  destruct (friction_factor_colebrook_seed 1e5 1e-5 0.05 (-1) 1e-6 ltac:(lra))
    as (H0 & Hneg & _).
  destruct (friction_factor_colebrook_seed 1e5 1e-5 0.05 0 1e-6 ltac:(lra))
    as (_ & _ & Hzero & _).
  split; [exact H0 | split].
  - apply (Hneg 49%nat). lra.
  - apply (Hzero 49%nat). reflexivity.
Defined.

Lemma log10_tenth : log10 (1 / 10) = -1.
Proof.
  pose proof ln_10_pos as H10. unfold log10.
  replace (1 / 10) with (/ 10) by lra.
  rewrite ln_Rinv by lra. field. lra.
Qed.

(** X7.  A seed that solves the Colebrook-White equation of the docstring,
    [1/sqrt(f) = -2 log10(eps/(3.7 D) + 2.51/(Re sqrt(f)))], is returned
    unchanged by the first pass, for every positive tolerance and every
    iteration cap of at least one. *)
Theorem friction_factor_colebrook_fixed_point (Re eps D f tol : R) (n : nat) :
  0 < Re -> 0 <= eps -> 0 < D -> 0 < f -> 0 < tol ->
  1 / sqrt f = colebrook_rhs Re eps D f ->
  friction_factor_colebrook Re eps D f (S n) tol = Return f.
Proof.
  intros HRe Heps HD Hf Htol Heq.
  pose proof (sqrt_lt_R0 f Hf) as Hs.
  assert (Hrhs : 0 < colebrook_rhs Re eps D f).
  { rewrite <- Heq. apply Rdiv_lt_0_compat; lra. }
  assert (Hnew : colebrook_proposal Re eps D f = f).
  { unfold colebrook_proposal. rewrite <- Heq.
    rewrite <- (pow2_sqrt f) at 2 by lra. field. lra. }
  unfold friction_factor_colebrook. rewrite Rleb_false by assumption.
  cbn [colebrook_loop].
  rewrite (colebrook_step_eval Re eps D tol HRe Heps HD f Hf).
  destruct (Req_dec_T (colebrook_rhs Re eps D f) 0) as [Hr | Hr]; [lra | ].
  cbv zeta. rewrite Hnew.
  replace (f - f) with 0 by ring. rewrite Rabs_R0.
  rewrite Rltb_true by assumption. reflexivity.
Qed.

Lemma friction_factor_colebrook_fixed_point_witness :
  friction_factor_colebrook 50.2 0 1 0.25 50 1e-6 = Return 0.25.
Proof.
  assert (Hs : sqrt 0.25 = 0.5).
  { replace 0.25 with (0.5 * 0.5) by lra. apply sqrt_square. lra. }
  apply (friction_factor_colebrook_fixed_point 50.2 0 1 0.25 1e-6 49);
    [lra | lra | lra | lra | lra | ].
  unfold colebrook_rhs. rewrite Hs.
  replace (0 / (3.7 * 1) + 2.51 / (50.2 * 0.5)) with (1 / 10) by lra.
  rewrite log10_tenth. lra.
Defined.

(** ** Flow rate, velocity and the property database *)



(** X9.  What [properties_PT] returns is consistent, whatever the property
    database answers: the density is not zero, [nu] is [mu / rho], and the
    Reynolds number computed from [rho] and [mu] is the one computed from
    [nu], a value or the same exception. *)
Theorem properties_PT_consistent
  (PropsSI : string -> string -> R -> string -> R -> string -> result R)
  (fluid : string) (P T : R) (p : FluidProps.t) :
  properties_PT PropsSI fluid P T = Return p ->
  PropsSI "D"%string "P"%string P "T"%string T fluid = Return (FluidProps.rho p) /\
  PropsSI "V"%string "P"%string P "T"%string T fluid = Return (FluidProps.mu p) /\
  FluidProps.rho p <> 0 /\
  FluidProps.nu p = FluidProps.mu p / FluidProps.rho p /\
  forall V D : R,
    reynolds_number (FluidProps.rho p) V D (Some (FluidProps.mu p)) None
    = reynolds_number (FluidProps.rho p) V D None (Some (FluidProps.nu p)).
Proof.
  unfold properties_PT. intros H.
  apply bind_Return_inv in H. destruct H as (rho & Hrho & H).
  apply bind_Return_inv in H. destruct H as (mu & Hmu & H).
  apply bind_Return_inv in H. destruct H as (nu & Hnu & H).
  injection H as <-. cbn [FluidProps.rho FluidProps.mu FluidProps.nu].
  pose proof (truediv_return _ _ _ Hnu) as [Hnz ->].
  repeat split; try assumption.
  intros V D. unfold reynolds_number. rewrite Hnu. reflexivity.
Qed.

Lemma properties_PT_consistent_witness :
  let PropsSI := fun (output _ : string) (_ : R) (_ : string) (_ : R)
                     (_ : string) =>
                   if String.eqb output "D"%string then Return 998
                   else Return 0.001 in
  properties_PT PropsSI "Water"%string 101325 300
  = Return (FluidProps.mk 998 0.001 (0.001 / 998)) /\
  reynolds_number 998 5 0.05 (Some 0.001) None
  = reynolds_number 998 5 0.05 None (Some (0.001 / 998)).
Proof.
  intros PropsSI.
  assert (H : properties_PT PropsSI "Water"%string 101325 300
              = Return (FluidProps.mk 998 0.001 (0.001 / 998))).
  { unfold properties_PT, PropsSI. cbn [String.eqb Ascii.eqb Bool.eqb].
    rewrite !bind_Return. rewrite truediv_nonzero by lra. reflexivity. }
  split; [exact H | ].
  destruct (properties_PT_consistent PropsSI "Water" 101325 300 _ H)
    as (_ & _ & _ & _ & HRe).
  exact (HRe 5 0.05).
Defined.

(** ** What a successful analysis guarantees *)

Lemma head_loss_darcy_return (f L D V h : R) :
  head_loss_darcy f L D V = Return h ->
  D <> 0 /\ h = f * (L / D) * V ^ 2 / (2 * g).
Proof.
  unfold head_loss_darcy. intros H.
  apply bind_Return_inv in H. destruct H as (r & Hr & H).
  apply truediv_return in Hr. destruct Hr as [HD ->].
  injection H as <-. split; [assumption | reflexivity].
Qed.

Lemma analyze_pipe_flow_velocity_return
  (v D L eps_rel : R) (rho mu nu : option R) (K_total : R) (r : FlowResult.t) :
  analyze_pipe_flow None (Some v) D L eps_rel rho mu nu K_total = Return r ->
  exists rho0,
    rho = Some rho0 /\ D <> 0 /\
    FlowResult.V r = v /\
    reynolds_number rho0 v D mu nu = Return (FlowResult.Re r) /\
    friction_factor (FlowResult.Re r) eps_rel D = Return (FlowResult.f r) /\
    FlowResult.h_f r = FlowResult.f r * (L / D) * v ^ 2 / (2 * g) /\
    FlowResult.h_minor r = K_total * v ^ 2 / (2 * g) /\
    FlowResult.head_total r = FlowResult.h_f r + FlowResult.h_minor r /\
    FlowResult.deltaP r = rho0 * g * FlowResult.head_total r.
Proof.
  unfold analyze_pipe_flow. intros H.
  destruct rho as [rho0 | ]; [ | discriminate].
  apply bind_Return_inv in H. destruct H as (Re & HRe & H).
  apply bind_Return_inv in H. destruct H as (f & Hf & H).
  apply bind_Return_inv in H. destruct H as (h & Hh & H).
  apply head_loss_darcy_return in Hh. destruct Hh as [HD ->].
  cbv zeta in H. injection H as <-.
  exists rho0. cbn. unfold minor_loss_head, pressure_drop.
  repeat split; try assumption; reflexivity.
Qed.

Lemma analyze_pipe_flow_return
  (Q V : option R) (D L eps_rel : R) (rho mu nu : option R) (K_total : R)
  (r : FlowResult.t) :
  analyze_pipe_flow Q V D L eps_rel rho mu nu K_total = Return r ->
  exists rho0,
    rho = Some rho0 /\ D <> 0 /\
    (forall v, V = Some v -> FlowResult.V r = v) /\
    (V = None -> exists q, Q = Some q /\
                           FlowResult.V r = q / (PI * D ^ 2 / 4)) /\
    reynolds_number rho0 (FlowResult.V r) D mu nu = Return (FlowResult.Re r) /\
    friction_factor (FlowResult.Re r) eps_rel D = Return (FlowResult.f r) /\
    0 < FlowResult.Re r /\ 0 < FlowResult.f r /\
    FlowResult.h_f r
    = FlowResult.f r * (L / D) * FlowResult.V r ^ 2 / (2 * g) /\
    FlowResult.h_minor r = K_total * FlowResult.V r ^ 2 / (2 * g) /\
    FlowResult.head_total r = FlowResult.h_f r + FlowResult.h_minor r /\
    FlowResult.deltaP r = rho0 * g * FlowResult.head_total r.
Proof.
  intros H.
  assert (Hrest : forall v,
    analyze_pipe_flow None (Some v) D L eps_rel rho mu nu K_total = Return r ->
    exists rho0,
      rho = Some rho0 /\ D <> 0 /\ FlowResult.V r = v /\
      reynolds_number rho0 (FlowResult.V r) D mu nu
      = Return (FlowResult.Re r) /\
      friction_factor (FlowResult.Re r) eps_rel D = Return (FlowResult.f r) /\
      0 < FlowResult.Re r /\ 0 < FlowResult.f r /\
      FlowResult.h_f r
      = FlowResult.f r * (L / D) * FlowResult.V r ^ 2 / (2 * g) /\
      FlowResult.h_minor r = K_total * FlowResult.V r ^ 2 / (2 * g) /\
      FlowResult.head_total r = FlowResult.h_f r + FlowResult.h_minor r /\
      FlowResult.deltaP r = rho0 * g * FlowResult.head_total r).
  { intros v Hv. apply analyze_pipe_flow_velocity_return in Hv.
    destruct Hv as (rho0 & Hrho & HD & HV & HRe & Hf & Hhf & Hhm & Hht & HdP).
    pose proof (friction_factor_returns_positive _ _ _ _ Hf) as [Hpos Hfpos].
    exists rho0. rewrite HV. repeat split; assumption. }
  destruct V as [v | ].
  - rewrite analyze_pipe_flow_velocity in H.
    destruct (Hrest v H) as (rho0 & Hrho & HD & HV & Hrem).
    exists rho0. split; [assumption | split; [assumption | ]].
    split; [intros v' Hv'; injection Hv' as <-; assumption | ].
    split; [discriminate | exact Hrem].
  - destruct Q as [q | ]; [ | discriminate].
    rewrite analyze_pipe_flow_flowrate in H.
    apply bind_Return_inv in H. destruct H as (v & Hv & H).
    unfold velocity_from_flowrate in Hv. apply truediv_return in Hv.
    destruct Hv as [_ ->].
    destruct (Hrest _ H) as (rho0 & Hrho & HD & HV & Hrem).
    exists rho0. split; [assumption | split; [assumption | ]].
    split; [discriminate | ].
    split; [intros _; exists q; split; [reflexivity | assumption] | exact Hrem].
Qed.

(** X10.  The record of a successful analysis is consistent: the density
    was supplied and the diameter is not zero; [V] is the supplied velocity
    or, failing that, [Q / (PI D^2 / 4)]; [Re] and [f] are positive and are
    what [reynolds_number] and [friction_factor] return; the four derived
    fields satisfy the Darcy-Weisbach and minor-loss formulas,
    [head_total = h_f + h_minor] and [deltaP = rho g head_total]. *)
Theorem analyze_pipe_flow_result
  (Q V : option R) (D L eps_rel : R) (rho mu nu : option R) (K_total : R)
  (r : FlowResult.t) :
  analyze_pipe_flow Q V D L eps_rel rho mu nu K_total = Return r ->
  exists rho0,
    rho = Some rho0 /\ D <> 0 /\
    (forall v, V = Some v -> FlowResult.V r = v) /\
    (V = None -> exists q, Q = Some q /\
                           FlowResult.V r = q / (PI * D ^ 2 / 4)) /\
    reynolds_number rho0 (FlowResult.V r) D mu nu = Return (FlowResult.Re r) /\
    friction_factor (FlowResult.Re r) eps_rel D = Return (FlowResult.f r) /\
    0 < FlowResult.Re r /\ 0 < FlowResult.f r /\
    FlowResult.h_f r
    = FlowResult.f r * (L / D) * FlowResult.V r ^ 2 / (2 * g) /\
    FlowResult.h_minor r = K_total * FlowResult.V r ^ 2 / (2 * g) /\
    FlowResult.head_total r = FlowResult.h_f r + FlowResult.h_minor r /\
    FlowResult.deltaP r = rho0 * g * FlowResult.head_total r.
Proof. apply analyze_pipe_flow_return. Qed.

Lemma analyze_pipe_flow_result_witness :
  exists r,
    analyze_pipe_flow None (Some 0.02) 0.05 10 1e-5
      (Some 998) (Some 0.001) None 1.5 = Return r /\
    FlowResult.V r = 0.02 /\
    0 < FlowResult.Re r /\ 0 < FlowResult.f r /\
    FlowResult.head_total r = FlowResult.h_f r + FlowResult.h_minor r /\
    FlowResult.deltaP r = 998 * g * FlowResult.head_total r.
Proof.
  assert (Hrun : exists r,
    analyze_pipe_flow None (Some 0.02) 0.05 10 1e-5
      (Some 998) (Some 0.001) None 1.5 = Return r).
  { eexists. apply analyze_pipe_flow_laminar; lra. }
  destruct Hrun as [r Hr]. exists r. split; [exact Hr | ].
  destruct (analyze_pipe_flow_result _ _ _ _ _ _ _ _ _ _ Hr)
    as (rho0 & Hrho & _ & HV & _ & _ & _ & HRe & Hf & _ & _ & Hht & HdP).
  injection Hrho as <-.
  split; [apply HV; reflexivity | ].
  repeat split; assumption.
Defined.

(** X11.  In the laminar regime the analysis reproduces the
    Hagen-Poiseuille law: with a dynamic viscosity [mu] the pressure drop
    of a successful run at [Re < 2300] is
    [32 mu L V / D^2 + rho K_total V^2 / 2]; its friction part does not
    depend on the density, the roughness or the value of [g]. *)
Theorem analyze_pipe_flow_hagen_poiseuille
  (Q V : option R) (D L eps_rel rho m K_total : R) (r : FlowResult.t) :
  analyze_pipe_flow Q V D L eps_rel (Some rho) (Some m) None K_total
  = Return r ->
  FlowResult.Re r < 2300 ->
  FlowResult.f r = 64 / FlowResult.Re r /\
  FlowResult.deltaP r
  = 32 * m * L * FlowResult.V r / D ^ 2
    + rho * K_total * FlowResult.V r ^ 2 / 2.
Proof.
  intros H Hlam. apply analyze_pipe_flow_return in H.
  destruct H as (rho0 & Hrho & HD & _ & _ & HRe & Hf & HRepos & _ &
                 Hhf & Hhm & Hht & HdP).
  injection Hrho as <-.
  unfold reynolds_number in HRe.
  apply bind_Return_inv in HRe. destruct HRe as (nu & Hnu & HRe).
  apply truediv_return in Hnu. destruct Hnu as [Hrho0 ->].
  apply truediv_return in HRe. destruct HRe as [Hnu HRe].
  rewrite friction_factor_laminar_branch in Hf by assumption.
  injection Hf as Hf.
  assert (Hm : m <> 0).
  { intros ->. apply Hnu. unfold Rdiv. ring. }
  assert (HV : FlowResult.V r <> 0).
  { intros HV0. rewrite HV0 in HRe. rewrite HRe in HRepos.
    unfold Rdiv in HRepos. rewrite !Rmult_0_l in HRepos. lra. }
  pose proof g_pos as Hg.
  split; [now symmetry | ].
  rewrite HdP, Hht, Hhf, Hhm, <- Hf, HRe.
  field. repeat split; try assumption; lra.
Qed.

Lemma analyze_pipe_flow_hagen_poiseuille_witness :
  exists r,
    analyze_pipe_flow None (Some 0.02) 0.05 10 1e-5
      (Some 998) (Some 0.001) None 0 = Return r /\
    FlowResult.deltaP r = 32 * 0.001 * 10 * 0.02 / 0.05 ^ 2.
Proof.
  assert (Hrun : exists r,
    analyze_pipe_flow None (Some 0.02) 0.05 10 1e-5
      (Some 998) (Some 0.001) None 0 = Return r /\
    FlowResult.V r = 0.02 /\ FlowResult.Re r < 2300).
  { eexists. split; [apply analyze_pipe_flow_laminar; lra | ].
    cbn [FlowResult.V FlowResult.Re]. split; [reflexivity | lra]. }
  destruct Hrun as (r & Hr & HV & Hlam). exists r. split; [exact Hr | ].
  destruct (analyze_pipe_flow_hagen_poiseuille _ _ _ _ _ _ _ _ _ Hr Hlam)
    as [_ HdP].
  rewrite HdP, HV. lra.
Defined.

(** X12.  A flow that is at rest or reversed is rejected.  In a pipe of
    positive diameter, with positive density and dynamic viscosity, a
    velocity [V <= 0] or a flow rate [Q <= 0] gives a Reynolds number that
    is not positive, and the analysis raises the [ValueError] of the
    resolver. *)
Theorem analyze_pipe_flow_rejects_reverse_flow
  (D L eps_rel rho m K_total : R) :
  0 < D -> 0 < rho -> 0 < m ->
  (forall (Q : option R) (v : R), v <= 0 ->
     analyze_pipe_flow Q (Some v) D L eps_rel (Some rho) (Some m) None K_total
     = Raise (ValueError "Re must be positive")) /\
  (forall q : R, q <= 0 ->
     analyze_pipe_flow (Some q) None D L eps_rel (Some rho) (Some m) None
       K_total
     = Raise (ValueError "Re must be positive")).
Proof.
  intros HD Hrho Hm.
  assert (Hv : forall (Q : option R) (v : R), v <= 0 ->
    analyze_pipe_flow Q (Some v) D L eps_rel (Some rho) (Some m) None K_total
    = Raise (ValueError "Re must be positive")).
  { intros Q v Hle. rewrite analyze_pipe_flow_velocity.
    unfold analyze_pipe_flow.
    rewrite reynolds_number_mu by lra. rewrite bind_Return.
    assert (Hnu : 0 < m / rho) by (apply Rdiv_lt_0_compat; assumption).
    assert (HRe : v * D / (m / rho) <= 0).
    { apply Rdiv_le_upper; [assumption | nra]. }
    unfold friction_factor. rewrite Rleb_true by assumption. reflexivity. }
  split; [exact Hv | ].
  intros q Hq. rewrite analyze_pipe_flow_flowrate.
  unfold velocity_from_flowrate.
  rewrite truediv_nonzero by (apply PI_area_nonzero; lra).
  rewrite bind_Return. apply Hv.
  pose proof PI_RGT_0 as Hpi.
  assert (HD2 : 0 < D ^ 2) by (apply pow_lt; assumption).
  assert (HA : 0 < PI * D ^ 2 / 4).
  { apply Rdiv_lt_0_compat; [apply Rmult_lt_0_compat; assumption | lra]. }
  apply Rdiv_le_upper; [assumption | lra].
Qed.

Lemma analyze_pipe_flow_rejects_reverse_flow_witness :
  analyze_pipe_flow None (Some 0) 0.05 10 1e-5 (Some 998) (Some 0.001) None 0
  = Raise (ValueError "Re must be positive") /\
  analyze_pipe_flow (Some (-0.01)) None 0.05 10 1e-5
    (Some 998) (Some 0.001) None 0
  = Raise (ValueError "Re must be positive").
Proof.
  destruct (analyze_pipe_flow_rejects_reverse_flow 0.05 10 1e-5 998 0.001 0)
    as [Hv Hq]; [lra | lra | lra | ].
  split; [apply Hv; lra | apply Hq; lra].
Defined.

(** X13.  A zero diameter never yields a result, in either mode, but the
    exception differs: from a flow rate the area is zero and the division
    raises [ZeroDivisionError], before the density is even looked at; from
    a velocity the Reynolds number is zero and, density and viscosity
    being usable, the resolver raises its [ValueError]. *)
Theorem analyze_pipe_flow_zero_diameter
  (L eps_rel : R) (rho mu nu : option R) (K_total : R) :
  (forall (Q V : option R) (r : FlowResult.t),
     analyze_pipe_flow Q V 0 L eps_rel rho mu nu K_total <> Return r) /\
  (forall q : R,
     analyze_pipe_flow (Some q) None 0 L eps_rel rho mu nu K_total
     = Raise ZeroDivisionError) /\
  (forall (Q : option R) (v rho0 m : R),
     rho0 <> 0 -> m <> 0 ->
     analyze_pipe_flow Q (Some v) 0 L eps_rel (Some rho0) (Some m) None
       K_total
     = Raise (ValueError "Re must be positive")).
Proof.
  split; [ | split].
  - intros Q V r H. apply analyze_pipe_flow_return in H.
    destruct H as (_ & _ & HD & _). now apply HD.
  - intros q. rewrite analyze_pipe_flow_flowrate.
    unfold velocity_from_flowrate.
    replace (PI * 0 ^ 2 / 4) with 0 by (simpl; lra).
    rewrite truediv_zero. reflexivity.
  - intros Q v rho0 m Hrho Hm. rewrite analyze_pipe_flow_velocity.
    unfold analyze_pipe_flow.
    rewrite reynolds_number_mu by assumption. rewrite bind_Return.
    unfold friction_factor. rewrite Rleb_true; [reflexivity | ].
    unfold Rdiv. rewrite Rmult_0_r, Rmult_0_l. lra.
Qed.

Lemma analyze_pipe_flow_zero_diameter_witness :
  analyze_pipe_flow (Some 0.01) None 0 10 1e-5 (Some 998) (Some 0.001) None 0
  = Raise ZeroDivisionError /\
  analyze_pipe_flow None (Some 5) 0 10 1e-5 (Some 998) (Some 0.001) None 0
  = Raise (ValueError "Re must be positive").
Proof.
  destruct (analyze_pipe_flow_zero_diameter 10 1e-5
              (Some 998) (Some 0.001) None 0) as (_ & Hq & Hv).
  split; [apply Hq | apply Hv; lra].
Defined.

(** ** The exceptions of the analysis *)

Lemma friction_factor_raise_cases (Re eps_rel D : R) (e : exn) :
  friction_factor Re eps_rel D = Raise e ->
  e = ValueError "Re must be positive" \/
  e = ZeroDivisionError \/
  (e = ValueError "math domain error" /\ ~ (0 <= eps_rel /\ 0 < D)).
Proof.
  intros H. pose proof (friction_factor_raise _ _ _ _ H) as Hcases.
  destruct Hcases as [[-> _] | [HRe [-> | ->]]]; auto.
  right. right. split; [reflexivity | ].
  intros [Heps HD].
  pose proof (friction_factor_raise_valid _ _ _ _ HRe Heps HD H) as [E _].
  discriminate.
Qed.

Lemma analyze_pipe_flow_raise_cases
  (Q V : option R) (D L eps_rel : R) (rho mu nu : option R) (K_total : R)
  (e : exn) :
  analyze_pipe_flow Q V D L eps_rel rho mu nu K_total = Raise e ->
  (e = ValueError "Provide Q or V" /\ Q = None /\ V = None) \/
  (e = ValueError "rho required" /\ rho = None) \/
  (e = ValueError "Provide mu or nu" /\ mu = None /\ nu = None) \/
  e = ValueError "Re must be positive" \/
  e = ZeroDivisionError \/
  (e = ValueError "math domain error" /\ ~ (0 <= eps_rel /\ 0 < D)).
Proof.
  assert (Hrest : forall v,
    analyze_pipe_flow None (Some v) D L eps_rel rho mu nu K_total = Raise e ->
    (e = ValueError "rho required" /\ rho = None) \/
    (e = ValueError "Provide mu or nu" /\ mu = None /\ nu = None) \/
    e = ValueError "Re must be positive" \/
    e = ZeroDivisionError \/
    (e = ValueError "math domain error" /\ ~ (0 <= eps_rel /\ 0 < D))).
  { intros v H. unfold analyze_pipe_flow in H.
    destruct rho as [r | ]; [ | injection H as <-; auto].
    apply bind_Raise_inv in H. destruct H as [H | (Re & _ & H)].
    - apply reynolds_number_raise in H.
      destruct H as [-> | (-> & Hmu & Hnu)]; auto 8.
    - apply bind_Raise_inv in H. destruct H as [H | (f & _ & H)].
      + apply friction_factor_raise_cases in H.
        destruct H as [-> | [-> | H]]; auto 8.
      + unfold head_loss_darcy in H. raise_inv H. subst e. auto 8. }
  destruct V as [v | ].
  - rewrite analyze_pipe_flow_velocity. intros H. right. now apply (Hrest v).
  - destruct Q as [q | ].
    + rewrite analyze_pipe_flow_flowrate. intros H.
      apply bind_Raise_inv in H. destruct H as [H | (v & _ & H)].
      * unfold velocity_from_flowrate in H. raise_inv H. subst e. auto 8.
      * right. now apply (Hrest v).
    + simpl. intros H. injection H as <-. auto.
Qed.

(** ** The Moody background curve *)

Lemma linspace_range (a b : R) (n : nat) (y : R) :
  a <= b -> In y (linspace a b (S n)) -> a <= y <= b.
Proof.
  intros Hab Hin. unfold linspace in Hin.
  apply in_map_iff in Hin. destruct Hin as (i & <- & Hi).
  apply in_seq in Hi. destruct Hi as [_ Hi].
  replace (S n - 1)%nat with n by (simpl; now rewrite Nat.sub_0_r).
  destruct n as [ | n].
  - assert (i = 0%nat) as -> by (destruct i; [reflexivity | inversion Hi as [ | ? Hle]; inversion Hle]).
    simpl. lra.
  - assert (Hn : 0 < INR (S n)) by (apply lt_0_INR, Nat.lt_0_succ).
    assert (Hi0 : 0 <= INR i) by apply pos_INR.
    assert (Hin : INR i <= INR (S n)).
    { apply le_INR. apply Nat.lt_succ_r. exact Hi. }
    set (t := (b - a) / INR (S n)).
    assert (Ht : 0 <= t) by (apply Rmult_le_pos; [lra | apply Rlt_le, Rinv_0_lt_compat; assumption]).
    assert (Htn : t * INR (S n) = b - a).
    { unfold t, Rdiv. rewrite Rmult_assoc, Rinv_l by lra. ring. }
    split; nra.
Qed.

Lemma logspace_length (a b : R) (n : nat) : length (logspace a b n) = n.
Proof. unfold logspace, linspace. now rewrite !length_map, length_seq. Qed.

Lemma Rpower_10_2 : Rpower 10 2 = 100.
Proof.
  replace 2 with (INR 2) by (simpl; lra).
  rewrite Rpower_pow by lra. lra.
Qed.

(** The sweep of [moody_background] stays between [Re = 100] and
    [Re = 10^8]. *)
Lemma logspace_2_8_range (n : nat) (Re : R) :
  In Re (logspace 2 8 (S n)) -> 100 <= Re <= Rpower 10 8.
Proof.
  unfold logspace. intros Hin.
  apply in_map_iff in Hin. destruct Hin as (y & <- & Hy).
  apply linspace_range in Hy; [ | lra]. destruct Hy as [Hlo Hhi].
  rewrite <- Rpower_10_2. split; apply Rle_Rpower; lra.
Qed.

(** The loop returns one friction factor per Reynolds number, in order,
    as long as none of the calls raises. *)
Lemma moody_loop_all (eps_rel : R) (P : R -> R -> Prop) (Re_range : list R) :
  (forall Re, In Re Re_range ->
     exists f, friction_factor Re eps_rel 0.1 = Return f /\ P Re f) ->
  forall acc : list R,
  exists fs,
    moody_loop eps_rel Re_range acc = Return (acc ++ fs) /\
    Forall2 P Re_range fs.
Proof.
  induction Re_range as [ | Re rest IH]; intros Hall acc.
  - exists []. split; [simpl; now rewrite app_nil_r | constructor].
  - destruct (Hall Re (or_introl eq_refl)) as (f & Hf & HP).
    destruct (IH (fun Re' H => Hall Re' (or_intror H)) (acc ++ [f]))
      as (fs & Hloop & Hfs).
    exists (f :: fs). split.
    + cbn [moody_loop]. rewrite Hf, bind_Return, Hloop.
      now rewrite <- app_assoc.
    + now constructor.
Qed.

(** X15.  The Moody background can always be drawn.  For a roughness
    argument between 0 and 0.05 (the default is 1e-5; the diameter is fixed
    to 0.1) [moody_background] never raises: it returns 200 Reynolds
    numbers between 100 and 10^8 and, for each of them in order, the
    friction factor of the resolver, which lies strictly between 0 and 1,
    so that every point can be placed on the logarithmic axes. *)
Theorem moody_background_drawable (eps_rel : R) :
  0 <= eps_rel -> eps_rel <= 0.05 ->
  exists Re_range f_vals,
    moody_background eps_rel = Return (Re_range, f_vals) /\
    length Re_range = 200%nat /\ length f_vals = 200%nat /\
    Forall2 (fun Re f =>
               100 <= Re <= Rpower 10 8 /\
               friction_factor Re eps_rel 0.1 = Return f /\
               0 < f < 1) Re_range f_vals.
Proof.
  intros Hlo Hhi. unfold moody_background. cbv zeta.
  destruct (moody_loop_all eps_rel
              (fun Re f => 100 <= Re <= Rpower 10 8 /\
                           friction_factor Re eps_rel 0.1 = Return f /\
                           0 < f < 1)
              (logspace 2 8 200)) with (acc := @nil R) as (fs & Hloop & Hfs).
  { intros Re Hin. apply (logspace_2_8_range 199) in Hin.
    destruct (friction_factor_physical Re eps_rel 0.1)
      as (f & Hf & Hpos & Hlt); [lra | assumption | lra | lra | ].
    exists f. split; [assumption | ].
    split; [assumption | split; [assumption | ]].
    split; [assumption | apply Hlt; lra]. }
  exists (logspace 2 8 200), fs.
  rewrite Hloop, bind_Return. split; [reflexivity | ].
  pose proof (Forall2_length Hfs) as Hlen.
  rewrite logspace_length in Hlen.
  split; [apply logspace_length | split; [now symmetry | exact Hfs]].
Qed.

Lemma moody_background_drawable_witness :
  exists Re_range f_vals,
    moody_background 1e-5 = Return (Re_range, f_vals) /\
    length Re_range = 200%nat /\ length f_vals = 200%nat.
Proof.
  destruct (moody_background_drawable 1e-5)
    as (Re_range & f_vals & Hrun & HlRe & Hlf & _); [lra | lra | ].
  exists Re_range, f_vals. split; [exact Hrun | split; assumption].
Defined.

(** ** The command line *)

Lemma caller_exceptions
  (Q V : option R) (D L eps_rel rho m K_total : R) (e : exn) :
  Q <> None \/ V <> None ->
  analyze_pipe_flow Q V D L eps_rel (Some rho) (Some m) None K_total
  = Raise e ->
  e = ValueError "Re must be positive" \/
  e = ZeroDivisionError \/
  (e = ValueError "math domain error" /\ ~ (0 <= eps_rel /\ 0 < D)).
Proof.
  intros Hflow H. apply analyze_pipe_flow_raise_cases in H.
  destruct H as [(_ & HQ & HV) | [(_ & Hrho) | [(_ & Hmu & _) | H]]].
  - destruct Hflow; contradiction.
  - discriminate.
  - discriminate.
  - exact H.
Qed.

(** X16.  How a run of the command line ends.  A failure of the property
    lookup ends the program with that exception, even when the flow value
    of the selected mode is missing, because the lookup comes first.  When
    the lookup succeeds: a missing [--Q] in mode Q, or [--V] in mode V, is
    a usage error; the value given for the other mode's option is ignored;
    and an exception of the core that reaches the user is never one of its
    three missing-argument errors, since the command line always passes
    exactly one of [Q] and [V], a density and a dynamic viscosity. *)
Theorem main_outcomes
  (PropsSI : string -> string -> R -> string -> R -> string -> result R)
  (fluid : string) (mode : cli_mode) (Q V : option R)
  (D L eps T P K : R) :
  let args := Build_cli_args fluid mode Q V D L eps T P K in
  (forall e, properties_PT PropsSI fluid P T = Raise e ->
     main PropsSI args = Uncaught e) /\
  (forall p, properties_PT PropsSI fluid P T = Return p ->
     (mode = ModeQ -> Q = None ->
        main PropsSI args = UsageError "--Q required for mode Q") /\
     (mode = ModeV -> V = None ->
        main PropsSI args = UsageError "--V required for mode V") /\
     (forall e, main PropsSI args = Uncaught e ->
        e = ValueError "Re must be positive" \/
        e = ZeroDivisionError \/
        (e = ValueError "math domain error" /\ ~ (0 <= eps /\ 0 < D)))) /\
  (forall V', mode = ModeQ ->
     main PropsSI (Build_cli_args fluid mode Q V' D L eps T P K)
     = main PropsSI args) /\
  (forall Q', mode = ModeV ->
     main PropsSI (Build_cli_args fluid mode Q' V D L eps T P K)
     = main PropsSI args).
Proof.
  intros args. unfold args, main.
  cbn [arg_fluid arg_mode arg_Q arg_V arg_D arg_L arg_eps arg_T arg_P arg_K].
  split; [ | split; [ | split]].
  - intros e ->. reflexivity.
  - intros p ->. cbv zeta. split; [ | split].
    + intros -> ->. reflexivity.
    + intros -> ->. reflexivity.
    + intros e. destruct mode.
      * destruct Q as [q | ]; [ | discriminate].
        destruct (analyze_pipe_flow (Some q) None D L eps
                    (Some (FluidProps.rho p)) (Some (FluidProps.mu p))
                    None K) as [r | e'] eqn:Hrun; [discriminate | ].
        intros E. injection E as <-.
        apply caller_exceptions in Hrun; [exact Hrun | left; discriminate].
      * destruct V as [v | ]; [ | discriminate].
        destruct (analyze_pipe_flow None (Some v) D L eps
                    (Some (FluidProps.rho p)) (Some (FluidProps.mu p))
                    None K) as [r | e'] eqn:Hrun; [discriminate | ].
        intros E. injection E as <-.
        apply caller_exceptions in Hrun; [exact Hrun | right; discriminate].
  - intros V' ->. reflexivity.
  - intros Q' ->. reflexivity.
Qed.

Lemma main_outcomes_witness :
  let PropsSI := fun (output _ : string) (_ : R) (_ : string) (_ : R)
                     (_ : string) =>
                   if String.eqb output "D"%string then Return 998
                   else Return 0.001 in
  main PropsSI
    (Build_cli_args "Water" ModeQ None (Some 1) 0.05 10 1e-5 300 101325 0)
  = UsageError "--Q required for mode Q" /\
  main PropsSI
    (Build_cli_args "Water" ModeV None None 0.05 10 1e-5 300 101325 0)
  = UsageError "--V required for mode V".
Proof.
  intros PropsSI.
  assert (H : properties_PT PropsSI "Water"%string 101325 300
              = Return (FluidProps.mk 998 0.001 (0.001 / 998))).
  { unfold properties_PT, PropsSI. cbn [String.eqb Ascii.eqb Bool.eqb].
    rewrite !bind_Return. rewrite truediv_nonzero by lra. reflexivity. }
  split.
  - destruct (main_outcomes PropsSI "Water" ModeQ None (Some 1)
                0.05 10 1e-5 300 101325 0) as (_ & Hok & _).
    destruct (Hok _ H) as (HQ & _). apply HQ; reflexivity.
  - destruct (main_outcomes PropsSI "Water" ModeV None None
                0.05 10 1e-5 300 101325 0) as (_ & Hok & _).
    destruct (Hok _ H) as (_ & HV & _). apply HV; reflexivity.
Defined.

(** ** Roughness and diameter enter through their ratio *)

Lemma truediv_scale (k x y : R) :
  k <> 0 -> truediv (k * x) (k * y) = truediv x y.
Proof.
  intros Hk. destruct (Req_dec_T y 0) as [-> | Hy].
  - rewrite Rmult_0_r, !truediv_zero. reflexivity.
  - rewrite !truediv_nonzero;
      [ | assumption | apply Rmult_integral_contrapositive_currified; assumption].
    apply f_equal. field. split; assumption.
Qed.

Lemma colebrook_loop_scale (k Re eps_rel D tol : R) (n : nat) :
  k <> 0 ->
  forall f : R,
  colebrook_loop n Re (k * eps_rel) (k * D) tol f
  = colebrook_loop n Re eps_rel D tol f.
Proof.
  intros Hk. induction n as [ | n IH]; intros f; [reflexivity | ].
  cbn [colebrook_loop]. unfold colebrook_step.
  rewrite truediv_scale by assumption.
  destruct (math_sqrt f) as [s | e]; [ | reflexivity]. rewrite !bind_Return.
  destruct (truediv 1 s) as [lhs | e]; [ | reflexivity]. rewrite !bind_Return.
  destruct (truediv eps_rel D) as [r | e]; [ | reflexivity].
  rewrite !bind_Return.
  destruct (truediv 2.51 (Re * s)) as [t | e]; [ | reflexivity].
  rewrite !bind_Return.
  destruct (math_log10 (r / 3.7 + t)) as [l | e]; [ | reflexivity].
  rewrite !bind_Return. cbv zeta.
  destruct (truediv 1 ((-2 * l) ^ 2)) as [f_new | e]; [ | reflexivity].
  rewrite !bind_Return.
  destruct (Rltb (Rabs (f_new - f)) tol); rewrite !bind_Return;
    [reflexivity | apply IH].
Qed.

(** In exact arithmetic a common factor of roughness and diameter cancels
    in the quotient, the only place where the two occur. *)
Lemma friction_factor_scale (k Re eps_rel D : R) :
  k <> 0 ->
  friction_factor Re (k * eps_rel) (k * D) = friction_factor Re eps_rel D /\
  friction_factor_swamee_jain Re (k * eps_rel) (k * D)
  = friction_factor_swamee_jain Re eps_rel D /\
  forall (f0 : R) (max_iter : nat) (tol : R),
    friction_factor_colebrook Re (k * eps_rel) (k * D) f0 max_iter tol
    = friction_factor_colebrook Re eps_rel D f0 max_iter tol.
Proof.
  intros Hk.
  assert (Hsj : friction_factor_swamee_jain Re (k * eps_rel) (k * D)
                = friction_factor_swamee_jain Re eps_rel D).
  { unfold friction_factor_swamee_jain.
    now rewrite truediv_scale by assumption. }
  assert (Hcb : forall (f0 : R) (max_iter : nat) (tol : R),
    friction_factor_colebrook Re (k * eps_rel) (k * D) f0 max_iter tol
    = friction_factor_colebrook Re eps_rel D f0 max_iter tol).
  { intros f0 max_iter tol. unfold friction_factor_colebrook.
    now rewrite colebrook_loop_scale by assumption. }
  split; [ | split; assumption].
  unfold friction_factor. now rewrite Hsj, Hcb.
Qed.

(** X17.  Doubling or halving both the roughness and the diameter, any
    number of times, changes nothing: for every integer [n] the Swamee-Jain
    value, the Colebrook solver and [friction_factor] have the same outcome
    on [(Re, 2^n eps, 2^n D)] as on [(Re, eps, D)].  (A power of two is the
    factor that binary64 applies without rounding.) *)
Theorem friction_factor_binary_scaling (n : Z) (Re eps_rel D : R) :
  friction_factor Re (powerRZ 2 n * eps_rel) (powerRZ 2 n * D)
  = friction_factor Re eps_rel D /\
  friction_factor_swamee_jain Re (powerRZ 2 n * eps_rel) (powerRZ 2 n * D)
  = friction_factor_swamee_jain Re eps_rel D /\
  forall (f0 : R) (max_iter : nat) (tol : R),
    friction_factor_colebrook Re (powerRZ 2 n * eps_rel) (powerRZ 2 n * D)
      f0 max_iter tol
    = friction_factor_colebrook Re eps_rel D f0 max_iter tol.
Proof.
  apply friction_factor_scale. apply powerRZ_NOR. lra.
Qed.

(** ** The Swamee-Jain correlation on its own *)

Lemma log10_zero_iff (x : R) : 0 < x -> (log10 x = 0 <-> x = 1).
Proof.
  intros Hx. pose proof ln_10_pos as H10. split.
  - intros H. apply ln_inv; [assumption | lra | ].
    rewrite ln_1. unfold log10 in H.
    apply (f_equal (fun t => t * ln 10)) in H.
    unfold Rdiv in H. rewrite Rmult_assoc, Rinv_l in H by lra. lra.
  - intros ->. apply log10_1.
Qed.

(** X18.  [friction_factor_swamee_jain] called directly checks [Re] only.
    For [Re <= 0] it raises its [ValueError]; for [Re > 0] and [D = 0] the
    first division raises [ZeroDivisionError].  On valid inputs a value
    that it returns is the value of the formula and is positive, but it is
    not confined to (0, 1): that test is made by [friction_factor]
    alone. *)
Theorem friction_factor_swamee_jain_direct (Re eps D : R) :
  (Re <= 0 ->
     friction_factor_swamee_jain Re eps D
     = Raise (ValueError "Re must be positive for Swamee-Jain")) /\
  (0 < Re -> D = 0 ->
     friction_factor_swamee_jain Re eps D = Raise ZeroDivisionError) /\
  (0 < Re -> 0 <= eps -> 0 < D ->
     forall f, friction_factor_swamee_jain Re eps D = Return f ->
     f = swamee_jain_formula Re eps D /\ 0 < f).
Proof.
  split; [ | split].
  - intros HRe. unfold friction_factor_swamee_jain.
    now rewrite Rleb_true.
  - intros HRe ->. unfold friction_factor_swamee_jain.
    rewrite Rleb_false by assumption. now rewrite truediv_zero.
  - intros HRe Heps HD f Hf.
    destruct (friction_factor_swamee_jain_eval Re eps D HRe Heps HD)
      as [(_ & Hsj & _) | (_ & Hsj & Hpos)]; rewrite Hsj in Hf.
    + discriminate.
    + injection Hf as <-. split; [reflexivity | assumption].
Qed.

Lemma friction_factor_swamee_jain_direct_witness :
  friction_factor_swamee_jain 0 1e-5 0.05
  = Raise (ValueError "Re must be positive for Swamee-Jain") /\
  friction_factor_swamee_jain 1e5 1e-5 0 = Raise ZeroDivisionError /\
  exists f, friction_factor_swamee_jain 10000 5.55 1 = Return f /\
            f = swamee_jain_formula 10000 5.55 1 /\ 4 < f.
Proof.
  pose proof rough_pipe_swamee_jain_rejected as Hlarge.
  split; [ | split].
  - apply (friction_factor_swamee_jain_direct 0 1e-5 0.05). lra.
  - destruct (friction_factor_swamee_jain_direct 1e5 1e-5 0) as (_ & Hzero & _).
    apply Hzero; [lra | reflexivity].
  - assert (Hrun : exists f, friction_factor_swamee_jain 10000 5.55 1 = Return f).
    { destruct (friction_factor_swamee_jain_eval 10000 5.55 1)
        as [(_ & _ & Hz) | (_ & Hsj & _)]; [lra | lra | lra | lra | ].
      eexists. exact Hsj. }
    destruct Hrun as [f Hf]. exists f. split; [exact Hf | ].
    destruct (friction_factor_swamee_jain_direct 10000 5.55 1)
      as (_ & _ & Hvalid).
    destruct (Hvalid ltac:(lra) ltac:(lra) ltac:(lra) f Hf) as [-> _].
    split; [reflexivity | exact Hlarge].
Defined.

(** ** Very rough pipes *)

(** X19.  For a roughness of at least [4 D] the resolver never raises, in
    either regime and whichever correlation is used, and returns a positive
    friction factor: the argument of each logarithm is then at least
    [4 / 3.7], well away from 1. *)
Theorem friction_factor_total_on_rough_pipes (Re eps D : R) :
  0 < Re -> 0 < D -> 4 * D <= eps ->
  exists f, friction_factor Re eps D = Return f /\ 0 < f.
Proof.
  intros HRe HD Hrough.
  assert (Heps : 0 <= eps) by lra.
  destruct (friction_factor Re eps D) as [f | e] eqn:Hrun.
  - exists f. split; [reflexivity | ].
    exact (proj2 (friction_factor_returns_positive _ _ _ _ Hrun)).
  - exfalso.
    pose proof (friction_factor_raise_valid _ _ _ _ HRe Heps HD Hrun)
      as (_ & _ & _ & Hv).
    revert Hv. apply rhs_never_vanishes_rough; lra.
Qed.

Lemma friction_factor_total_on_rough_pipes_witness :
  exists f, friction_factor 10000 5.55 1 = Return f /\ 0 < f.
Proof.
  apply (friction_factor_total_on_rough_pipes 10000 5.55 1); lra.
Defined.

(** ** Absorption in the binary64 solver *)



(** ** The Colebrook solver: what a returned value is, and when none is *)




